(** * Comparable-sales adjustment and market-trend engine

    Shallow embedding of the two analysis scripts
    [Projects-GitHub/Python/Market_Analysis.py] and
    [Projects-GitHub/Python/Adjustment_Analysis_.py].

    Numbers.  The scripts compute on pandas/numpy float columns.  A column
    value is modelled by [num]: a finite value (an exact rational, so no
    rounding is modelled), a signed infinity or NaN.  Division of pandas
    columns and numpy scalars by zero does not raise; it yields an infinity
    (or NaN for 0/0), and the model follows that.  Signed zero is not
    modelled.

    Dates.  Calendar dates at midnight are day numbers in [Z]; a timedelta
    in whole days is a difference of day numbers.  A date that pandas
    coerced to [NaT] is [None]. *)

From Stdlib Require Import ZArith QArith Qabs Qround Lia List String Ascii Bool.
From Stdlib Require Import Sorting.Sorted Permutation.
Import ListNotations.
Set Warnings "-register-all".

Open Scope Z_scope.

(* ------------------------------------------------------------------ *)
(** ** Float column values *)

Module Num.

Inductive num : Type :=
| Fin (q : Q)
| Inf (pos : bool)
| NaN.

Definition of_Z (z : Z) : num := Fin (inject_Z z).

(** [30.44], the average month length used throughout both scripts. *)
Definition month_len : Q := 3044 # 100.

Definition neg (a : num) : num :=
  match a with
  | Fin q => Fin (- q)
  | Inf p => Inf (negb p)
  | NaN => NaN
  end.

Definition add (a b : num) : num :=
  match a, b with
  | NaN, _ | _, NaN => NaN
  | Fin x, Fin y => Fin (x + y)
  | Inf p, Fin _ | Fin _, Inf p => Inf p
  | Inf p, Inf r => if Bool.eqb p r then Inf p else NaN
  end.

Definition sub (a b : num) : num := add a (neg b).

(** strict order on rationals as a boolean *)
Definition Qltb (x y : Q) : bool := negb (Qle_bool y x).

(** sign of a nonzero rational, [true] for positive *)
Definition qpos (x : Q) : bool := Qltb 0 x.

Definition mul (a b : num) : num :=
  match a, b with
  | NaN, _ | _, NaN => NaN
  | Fin x, Fin y => Fin (x * y)
  | Inf p, Fin y | Fin y, Inf p =>
      if Qeq_bool y 0 then NaN else Inf (Bool.eqb p (qpos y))
  | Inf p, Inf r => Inf (Bool.eqb p r)
  end.

Definition div (a b : num) : num :=
  match a, b with
  | NaN, _ | _, NaN => NaN
  | Fin x, Fin y =>
      if Qeq_bool y 0 then
        (if Qeq_bool x 0 then NaN else Inf (qpos x))
      else Fin (x / y)
  | Fin _, Inf _ => Fin 0
  | Inf p, Fin y => if Qeq_bool y 0 then Inf p else Inf (Bool.eqb p (qpos y))
  | Inf _, Inf _ => NaN
  end.

Definition abs (a : num) : num :=
  match a with
  | Fin q => Fin (Qabs q)
  | Inf _ => Inf true
  | NaN => NaN
  end.

(** Python's [a > b] on floats: every comparison with NaN is false. *)
Definition gt (a b : num) : bool :=
  match a, b with
  | NaN, _ | _, NaN => false
  | Fin x, Fin y => Qltb y x
  | Inf true, Inf false => true
  | Inf _, Inf _ => false
  | Inf p, Fin _ => p
  | Fin _, Inf p => negb p
  end.

Definition lt (a b : num) : bool := gt b a.

(** Two column values denote the same float value. *)
Definition same (a b : num) : Prop :=
  match a, b with
  | Fin x, Fin y => x == y
  | Inf p, Inf r => p = r
  | NaN, NaN => True
  | _, _ => False
  end.

Definition is_finite (a : num) : bool :=
  match a with Fin _ => true | _ => false end.

End Num.

Import Num.

Declare Scope num_scope.
Delimit Scope num_scope with num.
Infix "+" := Num.add : num_scope.
Infix "-" := Num.sub : num_scope.
Infix "*" := Num.mul : num_scope.
Infix "/" := Num.div : num_scope.
Infix "≡" := Num.same (at level 70) : num_scope.

(* ------------------------------------------------------------------ *)
(** ** Adjustment_Analysis_.py *)

Module Adjustment.

(** A row of [sales_data_processed.csv] as read back by the script. *)
Record comp : Type := mkComp {
  Sale_Date : Z;
  Sale_Price : num;
  Living_Area : num;
  Price_Per_SF : num
}.

(** Values read from [validation_info.json]. *)
Record config : Type := mkConfig {
  SUBJECT_LIVING_AREA : Z;
  DATE_OF_VALUE : Z;
  TIME_THRESHOLD_DAYS : Z;
  SF_THRESHOLD_PCT : num;
  monthly_trend_pct : num;
  daily_price_change : num
}.

(** One row of [adjusted_sales.csv]. *)
Record adjusted : Type := mkAdjusted {
  a_comp : comp;
  Days_Difference : Z;
  Time_Adj_Amount : num;
  Time_Adj_Pct : num;
  SF_Difference : num;
  SF_Difference_Pct : num;
  SF_Adj_Amount : num;
  SF_Adj_Pct : num;
  Net_Adj_Amount : num;
  Net_Adj_Pct : num;
  Adjusted_Sale_Price : num;
  Adjusted_Price_Per_SF : num
}.

Open Scope num_scope.

(** STEP 2, lines 81-97: the time adjustment of one row. *)
Definition time_adjustment (cfg : config) (days_diff : Z) : num * num :=
  if (Z.abs days_diff >? TIME_THRESHOLD_DAYS cfg)%Z then
    (daily_price_change cfg * of_Z days_diff,
     (monthly_trend_pct cfg / Fin month_len) * of_Z days_diff)
  else (Fin 0, Fin 0).

(** STEP 3, lines 111-138: the living-area adjustment of one row, given the
    marginal value per SF from the regression of line 116. *)
Definition sf_adjustment (cfg : config) (marginal_value_per_sf : num)
    (sf_diff sf_diff_pct : num) : num * num :=
  if gt (abs sf_diff_pct) (SF_THRESHOLD_PCT cfg) then
    (neg sf_diff * marginal_value_per_sf,
     neg (sf_diff / of_Z (SUBJECT_LIVING_AREA cfg)) * Fin 100)
  else (Fin 0, Fin 0).

(** Steps 2-4 for one row. *)
Definition adjust_row (cfg : config) (marginal_value_per_sf : num) (c : comp)
    : adjusted :=
  let days_diff := (DATE_OF_VALUE cfg - Sale_Date c)%Z in
  let '(t_amt, t_pct) := time_adjustment cfg days_diff in
  let sf_diff := Living_Area c - of_Z (SUBJECT_LIVING_AREA cfg) in
  let sf_diff_pct := (sf_diff / of_Z (SUBJECT_LIVING_AREA cfg)) * Fin 100 in
  let '(s_amt, s_pct) :=
    sf_adjustment cfg marginal_value_per_sf sf_diff sf_diff_pct in
  let net_amt := t_amt + s_amt in
  let net_pct := t_pct + s_pct in
  let adj_price := Sale_Price c + net_amt in
  mkAdjusted c days_diff t_amt t_pct sf_diff sf_diff_pct s_amt s_pct
    net_amt net_pct adj_price (adj_price / Living_Area c).

(** The result of [stats.linregress]: slope, intercept, r; [None] when
    scipy raises (all x values identical). *)
Definition regression := list num -> list num -> option (num * num * num).

(** The whole script on the processed table: the marginal value per SF is
    the slope of price on living area over all comparables; [None] when the
    regression raises. *)
Definition adjustment_analysis (linregress : regression) (cfg : config)
    (comp_sales : list comp) : option (list adjusted) :=
  match linregress (map Living_Area comp_sales) (map Sale_Price comp_sales) with
  | None => None
  | Some (slope_sf, _, _) => Some (map (adjust_row cfg slope_sf) comp_sales)
  end.

Close Scope num_scope.

End Adjustment.

(* ------------------------------------------------------------------ *)
(** ** Market_Analysis.py *)

Module Market.

Open Scope string_scope.

(** *** Header mapping, lines 210-247 *)

(** The ASCII characters [str.isspace] accepts; headers are taken as ASCII
    text. *)
Definition is_space (c : ascii) : bool :=
  existsb (Nat.eqb (nat_of_ascii c)) [32; 9; 10; 11; 12; 13; 28; 29; 30; 31]%nat.

Fixpoint lstrip (s : string) : string :=
  match s with
  | EmptyString => EmptyString
  | String c s' => if is_space c then lstrip s' else s
  end.

Fixpoint rev_string (s : string) (acc : string) : string :=
  match s with
  | EmptyString => acc
  | String c s' => rev_string s' (String c acc)
  end.

(** [str.strip()] *)
Definition strip (s : string) : string :=
  rev_string (lstrip (rev_string (lstrip s) EmptyString)) EmptyString.

Definition lower_ascii (c : ascii) : ascii :=
  let n := nat_of_ascii c in
  if (65 <=? n)%nat && (n <=? 90)%nat then ascii_of_nat (n + 32) else c.

(** [str.lower()] on ASCII text *)
Fixpoint lower (s : string) : string :=
  match s with
  | EmptyString => EmptyString
  | String c s' => String (lower_ascii c) (lower s')
  end.

(** [sub in s] *)
Fixpoint contains (sub s : string) : bool :=
  String.prefix sub s ||
  match s with
  | EmptyString => false
  | String _ s' => contains sub s'
  end.

(** [s.startswith(p)] *)
Definition startswith (s p : string) : bool := String.prefix p s.

(** The [if/elif] chain of lines 215-236 for one (stripped) header. *)
Definition canonical_of (col : string) : option string :=
  let low := lower col in
  let has x := contains x low in
  if (has "price" && (has "close" || has "sale")) || (strip low =? "price")
  then Some "Sale_Price"
  else if ((has "close" || has "sale") && has "date")
          || (strip low =? "closedate") || (strip low =? "saledate")
  then Some "Sale_Date"
  else if has "living" || has "gla" || has "sqft" || has "square"
  then Some "Living_Area"
  else if has "bed" && negb (has "room") then Some "Bedrooms"
  else if has "bath" then Some "Bathrooms"
  else if has "street number" || has "street_number" || has "street no"
  then Some "Street_Number"
  else if (has "street" && has "name")
          || (startswith low "street" && negb (has "name") && has "st")
  then Some "Street_Name"
  else if ("dom" =? low) || has "days on market" || has "days active"
          || has "days_active"
  then Some "DOM"
  else if has "cdom" || has "cumulative" then Some "CDOM"
  else if has "garage" then Some "Garage"
  else None.

(** Column names after the strip of line 210 and the rename of line 240. *)
Definition mapped_columns (columns : list string) : list string :=
  map (fun c => let c := strip c in
                match canonical_of c with Some n => n | None => c end)
      columns.

Definition required_final : list string :=
  ["Sale_Price"; "Sale_Date"; "Living_Area"; "Bedrooms"; "Bathrooms";
   "Street_Number"; "Street_Name"; "DOM"; "CDOM"; "Garage"].

(** [missing_final], line 244 *)
Definition missing_final (columns : list string) : list string :=
  filter (fun c => negb (existsb (String.eqb c) (mapped_columns columns)))
         required_final.

(** How many columns carry the name [n] after the rename; [df[n]] is a
    DataFrame rather than a Series when there are two or more. *)
Definition columns_named (n : string) (columns : list string) : nat :=
  List.length (filter (String.eqb n) (mapped_columns columns)).

Definition duplicated (n : string) (columns : list string) : bool :=
  (2 <=? columns_named n columns)%nat.

(** *** The CSV table *)

(** One CSV row: the text of its cells under the four columns the script
    reads, renamed [Sale_Date], [Sale_Price], [Living_Area] and [DOM].
    When one of these names is carried by two columns the cells are not
    consulted: see [market_analysis]. *)
Record raw_row : Type := mkRaw {
  raw_date : string;
  raw_price : string;
  raw_living_area : string;
  raw_dom : string
}.

(** A cell as [pd.read_csv] (line 207) holds it. *)
Inductive cell : Type :=
| CNum (x : num)       (** a number; NaN for a missing value *)
| CText (s : string).  (** the text of a cell of a column read as text *)

Definition is_missing (c : cell) : bool :=
  match c with CNum NaN => true | _ => false end.

Definition is_text (c : cell) : bool :=
  match c with CText _ => true | CNum _ => false end.

(** The pandas conversions the script relies on to read the table. *)
Record csv_reader : Type := mkReader {
  (** [read_csv]'s reading of one cell as a number: [Some NaN] for its
      missing-value markers (empty, "NA", "n/a", "nan", ...), [None] for
      text that is not a number. *)
  to_float : string -> option num;
  (** the cells [pd.to_datetime] passes over when it looks for the first
      non-null one (NaN, empty text, "NaT", "now", "today", ...) *)
  skip_for_guess : cell -> bool;
  (** the format pandas 2 guesses from that first cell; [None] when it
      guesses none *)
  guess_datetime_format : string -> option string;
  (** the conversion of one cell with the guessed format ([None]: each cell
      parsed on its own); [None] is NaT, which [errors='coerce'] makes of
      every failure *)
  parse_datetime : option string -> cell -> option Z
}.

(** A row of the table after line 251: its parsed date ([None] is NaT)
    and its cells. *)
Record typed_row : Type := mkTyped {
  t_date : option Z;
  t_price : cell;
  t_area : cell;
  t_dom : cell
}.

(** *** Sales records *)

(** A row of the processed table, with the derived columns of lines
    290-291. *)
Record sale : Type := mkSale {
  Sale_Date : Z;
  Sale_Price : num;
  Living_Area : num;
  Price_Per_SF : num;
  Days_From_DOV : Z
}.

Record valid_period : Type := mkValid {
  v_name : string;
  v_months : Z;
  v_sales_count : nat;
  v_cutoff_date : Z;
  v_status : string
}.

Record omitted_period : Type := mkOmitted {
  o_name : string;
  o_months : Z;
  o_reason : string;
  o_sales_count : nat
}.

Record trend_state : Type := mkTrend {
  slope_price : num;
  intercept_price : num;
  r_value_price : num;
  slope_pricesf : num;
  daily_price_change : num;
  monthly_price_change_pct : num;
  market_trend : string
}.

(** The [trend_results] dictionary of lines 500-507. *)
Record trend_results : Type := mkTrendResults {
  tr_slope_price : num;
  tr_daily_price_change : num;
  tr_monthly_price_change_pct : num;
  tr_slope_pricesf : num;
  tr_market_trend : string;
  tr_r_squared : num
}.

(** JSON values written to [validation_info.json]. *)
Inductive json : Type :=
| JStr (s : string)
| JDate (d : Z)
| JNum (n : num)
| JList (xs : list json)
| JObj (fields : list (string * json)).

Definition json_field (k : string) (j : json) : option json :=
  match j with
  | JObj fs => option_map snd (find (fun kv => String.eqb (fst kv) k) fs)
  | _ => None
  end.

(** *** The script from line 249 on *)

(** A numeric column's [.mean()]: pandas skips NaN. *)
Definition mean (xs : list num) : num :=
  let ys := filter (fun x => match x with NaN => false | _ => true end) xs in
  match ys with
  | [] => NaN
  | _ => Num.div (fold_left Num.add ys (Fin 0)) (of_Z (Z.of_nat (List.length ys)))
  end.

(** [int(months * 30.44)]: truncation, a floor for the positive months of
    the ladder. *)
Definition period_days (months : Z) : Z := Qfloor (inject_Z months * month_len).

Definition time_periods : list (string * Z) :=
  [("0-3 months", 3); ("4-6 months", 6); ("7-9 months", 9);
   ("9-12 months", 12); ("0-6 months", 6); ("0-12 months", 12);
   ("0-18 months", 18); ("0-24 months", 24); ("0-36 months", 36)].

Definition buffer_months : Q := 1.

Definition market_trend_of (daily_price_change r_squared : num) : string :=
  if gt daily_price_change (Fin (1 # 2)) then "INCREASING"
  else if lt daily_price_change (Fin (- (1 # 2))) then "DECREASING"
  else if lt r_squared (Fin (3 # 10)) then "UNSTABLE"
  else "STABLE".

Inductive outcome : Type :=
| Exited (code : Z)
    (** [sys.exit(1)] on missing columns (line 245), a date column that
        [pd.to_datetime] refuses (the [except] of lines 252-254) or missing
        form fields (line 263) *)
| NoSales (validation_info : json) (sales_on_or_before : nat)
    (** the [df.empty] branch, lines 273-287, ending in [sys.exit(0)] *)
| Raised (line : Z)
    (** an uncaught exception at that line: Python prints the traceback
        and exits with status 1, writing no file *)
| TextCellsKept
    (** a retained row holds a text price or living area beside a missing
        value: pandas divides only where both are present, so line 290
        passes and the run goes on with text in a number column; the model
        does not follow such a run further *)
| Completed (sales_on_or_before : nat) (processed : list sale)
    (valid_periods : list valid_period) (omitted_periods : list omitted_period)
    (trend : trend_state).

Record subject : Type := mkSubject {
  SUBJECT_ADDRESS : string;
  SUBJECT_LIVING_AREA : Z;
  form_fields_present : bool  (** the [required_fields] check of line 261 *)
}.

Section Script.

(** The pandas conversions reading the CSV. *)
Variable rd : csv_reader.
(** [stats.linregress]: slope, intercept, r; [None] when it raises. *)
Variable linregress : list num -> list num -> option (num * num * num).
(** The f-string renderings [{x:.1f}] and [{n}] used in the reasons. *)
Variable show_months : Q -> string.
Variable show_count : nat -> string.

(** Line 207: a column whose every cell is a number or missing is read as
    numbers; any other column keeps its text, its missing cells apart. *)
Definition read_column (col : list string) : list cell :=
  if forallb (fun s => match to_float rd s with Some _ => true | None => false end) col
  then map (fun s => match to_float rd s with Some x => CNum x | None => CText s end) col
  else map (fun s => match to_float rd s with Some NaN => CNum NaN | _ => CText s end) col.

(** Line 251 on a Series: pandas 2 guesses one format from the first cell
    it does not pass over, if that cell is text, and parses every cell with
    that format. *)
Definition to_datetime (col : list cell) : list (option Z) :=
  let fmt := match find (fun c => negb (skip_for_guess rd c)) col with
             | Some (CText s) => guess_datetime_format rd s
             | _ => None
             end in
  map (parse_datetime rd fmt) col.

Fixpoint zip_rows (ds : list (option Z)) (ps xs ms : list cell) : list typed_row :=
  match ds, ps, xs, ms with
  | d :: ds', p :: ps', x :: xs', m :: ms' => mkTyped d p x m :: zip_rows ds' ps' xs' ms'
  | _, _, _, _ => []
  end.

(** Lines 207 and 251: the table, each column read as a whole and the date
    column parsed as a whole. *)
Definition typed_rows (rows : list raw_row) : list typed_row :=
  zip_rows (to_datetime (read_column (map raw_date rows)))
           (read_column (map raw_price rows))
           (read_column (map raw_living_area rows))
           (read_column (map raw_dom rows)).

(** The date-of-value filter of line 269: a [NaT] date compares false and
    its row is dropped. *)
Definition on_or_before (DATE_OF_VALUE : Z) (rows : list raw_row) : list typed_row :=
  filter (fun r => match t_date r with
                   | Some d => (d <=? DATE_OF_VALUE)%Z
                   | None => false
                   end) (typed_rows rows).

(** Line 290 raises a [TypeError] on a row whose price and living area are
    both present and one of them is text. *)
Definition division_raises (r : typed_row) : bool :=
  negb (is_missing (t_price r)) && negb (is_missing (t_area r))
  && (is_text (t_price r) || is_text (t_area r)).

(** The dates, prices and living areas of the retained rows, when these
    are all numbers. *)
Fixpoint sale_numbers (kept : list typed_row) : option (list (Z * num * num)) :=
  match kept with
  | [] => Some []
  | r :: rs =>
      match t_date r, t_price r, t_area r, sale_numbers rs with
      | Some d, CNum p, CNum a, Some l => Some ((d, p, a) :: l)
      | _, _, _, _ => None
      end
  end.

(** Lines 290-291. *)
Definition derive (DATE_OF_VALUE : Z) (x : Z * num * num) : sale :=
  let '(d, price, area) := x in
  mkSale d price area (Num.div price area) (DATE_OF_VALUE - d).

(** [sort_values('Sale_Date')], line 294, as an insertion sort; sales of
    the same date keep their order. *)
Fixpoint insert_by_date (s : sale) (l : list sale) : list sale :=
  match l with
  | [] => [s]
  | h :: t => if (Sale_Date s <=? Sale_Date h)%Z then s :: h :: t
              else h :: insert_by_date s t
  end.

Definition sort_by_date (l : list sale) : list sale :=
  fold_right insert_by_date [] l.

(** The table of lines 290-294 when the retained prices and living areas
    are numbers. *)
Definition processed_sales (DATE_OF_VALUE : Z) (rows : list raw_row) : list sale :=
  match sale_numbers (on_or_before DATE_OF_VALUE rows) with
  | Some l => sort_by_date (map (derive DATE_OF_VALUE) l)
  | None => []
  end.

(** [df['Sale_Date'].min()] of a non-empty table. *)
Definition earliest_sale (df : list sale) : Z :=
  match df with
  | [] => 0
  | s :: t => fold_left Z.min (map Sale_Date t) (Sale_Date s)
  end.

Definition actual_coverage_months (DATE_OF_VALUE : Z) (df : list sale) : Q :=
  inject_Z (DATE_OF_VALUE - earliest_sale df) / month_len.

Definition count_since (df : list sale) (cutoff_date : Z) : nat :=
  List.length (filter (fun s => (cutoff_date <=? Sale_Date s)%Z) df).

Definition last_valid (valid : list valid_period) : option valid_period :=
  match rev valid with [] => None | v :: _ => Some v end.

(** One iteration of the loop of lines 337-385 on the state
    [(valid_periods, omitted_periods)]. *)
Definition validate_step (DATE_OF_VALUE : Z) (df : list sale)
    (st : list valid_period * list omitted_period) (p : string * Z)
    : list valid_period * list omitted_period :=
  let '(valid, omitted) := st in
  let '(period_name, period_months) := p in
  let cutoff_date := DATE_OF_VALUE - period_days period_months in
  let sales_count := count_since df cutoff_date in
  let cov := actual_coverage_months DATE_OF_VALUE df in
  if Qltb (cov + buffer_months) (inject_Z period_months) then
    (valid, app omitted [mkOmitted period_name period_months
       ("extends beyond data coverage (" ++ show_months cov ++ " months)")
       sales_count])
  else
    match last_valid valid with
    | Some lv =>
        if Nat.eqb sales_count (v_sales_count lv) then
          (valid, app omitted [mkOmitted period_name period_months
             ("identical sales count to " ++ v_name lv ++ " (n="
              ++ show_count sales_count ++ ")") sales_count])
        else (app valid [mkValid period_name period_months sales_count
                          cutoff_date "valid"], omitted)
    | None =>
        (app valid [mkValid period_name period_months sales_count
                     cutoff_date "valid"], omitted)
    end.

Definition validate_periods (DATE_OF_VALUE : Z) (df : list sale)
    : list valid_period * list omitted_period :=
  fold_left (validate_step DATE_OF_VALUE df) time_periods ([], []).

(** Lines 440-448: the trend window and its [Days_Numeric] axis. *)
Definition trend_window (DATE_OF_VALUE : Z) (df : list sale)
    (valid : list valid_period) : list sale :=
  if existsb (fun p => String.eqb (v_name p) "0-12 months") valid
  then filter (fun s => (DATE_OF_VALUE - period_days 12 <=? Sale_Date s)%Z) df
  else df.

Definition days_numeric (trend_df : list sale) : list num :=
  let m := earliest_sale trend_df in
  map (fun s => of_Z (Sale_Date s - m)) trend_df.

Definition trend_defaults : trend_state :=
  mkTrend (Fin 0) (Fin 0) (Fin 0) (Fin 0) (Fin 0) (Fin 0) "INSUFFICIENT DATA".

(** Lines 451-497; [None] when [stats.linregress] raises. *)
Definition trend_analysis (trend_df : list sale) : option trend_state :=
  if (2 <=? List.length trend_df)%nat then
    let x := days_numeric trend_df in
    match linregress x (map Sale_Price trend_df),
          linregress x (map Price_Per_SF trend_df) with
    | Some (slope_p, intercept_p, r_p), Some (slope_sf, _, _) =>
        let daily := slope_p in
        let monthly := Num.mul (Num.div (Num.mul slope_p (Fin month_len))
                                         (mean (map Sale_Price trend_df)))
                               (Fin 100) in
        Some (mkTrend slope_p intercept_p r_p slope_sf daily monthly
                (market_trend_of daily (Num.mul r_p r_p)))
    | _, _ => None
    end
  else Some trend_defaults.

(** Lines 500-507. *)
Definition trend_results_of (n : nat) (t : trend_state) : trend_results :=
  let big := (2 <=? n)%nat in
  mkTrendResults
    (if big then slope_price t else Fin 0)
    (if big then daily_price_change t else Fin 0)
    (if big then monthly_price_change_pct t else Fin 0)
    (if big then slope_pricesf t else Fin 0)
    (market_trend t)
    (if big then Num.mul (r_value_price t) (r_value_price t) else Fin 0).

(** The degenerate record of lines 275-282. *)
Definition no_sales_info (DATE_OF_VALUE : Z) (subj : subject) : json :=
  JObj [("date_of_value", JDate DATE_OF_VALUE);
        ("message", JStr "No sales on or before date of value");
        ("subject_property",
          JObj [("address", JStr (SUBJECT_ADDRESS subj));
                ("living_area", JNum (of_Z (SUBJECT_LIVING_AREA subj)))])].

(** Lines 423-424 of STEP 3 raise on a valid period holding a sale: with
    [DOM] carried by two columns the test of line 423 is a Series, whose
    truth value pandas refuses; a text [DOM] cell in the period makes the
    mean of line 424 fail. *)
Definition dom_raises (columns : list string) (kept : list typed_row)
    (valid : list valid_period) : bool :=
  existsb (fun v =>
    negb (Nat.eqb (v_sales_count v) 0) &&
    (duplicated "DOM" columns ||
     existsb (fun r => match t_date r with
                       | Some d => (v_cutoff_date v <=? d)%Z && is_text (t_dom r)
                       | None => false
                       end) kept)) valid.

(** The script from the column check of line 243 to the end.  A name
    carried by two columns: [pd.to_datetime] refuses a DataFrame with
    duplicate keys (line 251, caught and ended by [sys.exit(1)]); line 290
    cannot store the quotient of a DataFrame in one column. *)
Definition market_analysis (DATE_OF_VALUE : Z) (subj : subject)
    (columns : list string) (rows : list raw_row) : outcome :=
  match missing_final columns with
  | _ :: _ => Exited 1
  | [] =>
    if duplicated "Sale_Date" columns then Exited 1 else
    if negb (form_fields_present subj) then Exited 1 else
    let kept := on_or_before DATE_OF_VALUE rows in
    match kept with
    | [] => NoSales (no_sales_info DATE_OF_VALUE subj) 0
    | _ :: _ =>
      if duplicated "Sale_Price" columns || duplicated "Living_Area" columns
         || existsb division_raises kept then Raised 290 else
      match sale_numbers kept with
      | None => TextCellsKept
      | Some nums =>
        let df := sort_by_date (map (derive DATE_OF_VALUE) nums) in
        let '(valid, omitted) := validate_periods DATE_OF_VALUE df in
        if dom_raises columns kept valid
        then Raised (if duplicated "DOM" columns then 423 else 424) else
        match trend_analysis (trend_window DATE_OF_VALUE df valid) with
        | None => Raised 456
        | Some t => Completed (List.length kept) df valid omitted t
        end
      end
    end
  end.

End Script.

End Market.

(* ------------------------------------------------------------------ *)
(** ** Market_Analysis.py, STEP 3: statistics per valid period *)

Module PeriodStats.

Import Market.

(** One row of [statistics_summary.csv].  The optional DOM columns of lines
    423-425 are not part of this model: the processed-table model does not
    carry the DOM column. *)
Record period_stats : Type := mkStats {
  Period : string;
  Months : Z;
  N_Sales : nat;
  Absorption_Rate : num;
  Price_Mean : num;
  Price_Median : num;
  Price_Std : num;
  PriceSF_Mean : num;
  PriceSF_Median : num;
  PriceSF_Std : num
}.

Section Stats.

(** pandas' [Series.median()] and [Series.std()]. *)
Variable median : list num -> num.
Variable std : list num -> num.

(** Lines 397-429: periods whose window holds no sale are skipped. *)
Definition period_statistics (df : list sale) (valid : list valid_period)
    : list period_stats :=
  flat_map (fun period =>
    let period_df := filter (fun s => (v_cutoff_date period <=? Sale_Date s)%Z) df in
    let n := List.length period_df in
    if Nat.eqb n 0 then []
    else [mkStats (v_name period) (v_months period) n
            (Num.div (of_Z (Z.of_nat n)) (of_Z (v_months period)))
            (mean (map Sale_Price period_df))
            (median (map Sale_Price period_df))
            (std (map Sale_Price period_df))
            (mean (map Price_Per_SF period_df))
            (median (map Price_Per_SF period_df))
            (std (map Price_Per_SF period_df))]) valid.

End Stats.

End PeriodStats.

(* ------------------------------------------------------------------ *)
(** ** Adjustment_Analysis_.py, STEPS 5-6: statistics and summary *)

Module AdjustmentSummary.

Import Adjustment.

(** Python's [x != 0] and [x == 0] on a float: NaN differs from 0. *)
Definition ne0 (a : num) : bool :=
  match a with Fin q => negb (Qeq_bool q 0) | _ => true end.

Definition eq0 (a : num) : bool :=
  match a with Fin q => Qeq_bool q 0 | _ => false end.

Definition count_rows (p : adjusted -> bool) (rows : list adjusted) : nat :=
  List.length (filter p rows).

Record adjustment_counts : Type := mkCounts {
  time_only : nat;
  sf_only : nat;
  both : nat;
  none : nat
}.

(** Lines 196-199 and the [adjustment_counts] entry of lines 249-254. *)
Definition adjustment_counts_of (comp_sales : list adjusted) : adjustment_counts :=
  let time_adj_count := count_rows (fun r => ne0 (Time_Adj_Amount r)) comp_sales in
  let sf_adj_count := count_rows (fun r => ne0 (SF_Adj_Amount r)) comp_sales in
  let both_adj_count :=
    count_rows (fun r => ne0 (Time_Adj_Amount r) && ne0 (SF_Adj_Amount r)) comp_sales in
  let no_adj_count :=
    count_rows (fun r => eq0 (Time_Adj_Amount r) && eq0 (SF_Adj_Amount r)) comp_sales in
  mkCounts (time_adj_count - both_adj_count) (sf_adj_count - both_adj_count)
           both_adj_count no_adj_count.

(** Lines 166, 172 and 210. *)
Definition unadj_mean (comp_sales : list adjusted) : num :=
  Market.mean (map (fun r => Sale_Price (a_comp r)) comp_sales).

Definition adj_mean (comp_sales : list adjusted) : num :=
  Market.mean (map Adjusted_Sale_Price comp_sales).

Definition avg_net_adj (comp_sales : list adjusted) : num :=
  Market.mean (map Net_Adj_Amount comp_sales).

End AdjustmentSummary.

(* ------------------------------------------------------------------ *)
(** ** From one script to the next *)

Module Pipeline.

(** A row of [sales_data_processed.csv], written at line 515 of
    Market_Analysis.py and read back at line 27 of Adjustment_Analysis_.py. *)
Definition to_comp (s : Market.sale) : Adjustment.comp :=
  Adjustment.mkComp (Market.Sale_Date s) (Market.Sale_Price s)
    (Market.Living_Area s) (Market.Price_Per_SF s).

(** Lines 47-54 of Adjustment_Analysis_.py: the configuration read from
    [validation_info.json], whose [trend_results] are those of line 500 of
    Market_Analysis.py. *)
Definition config_of (DATE_OF_VALUE : Z) (subj : Market.subject)
    (time_adjustment_days : Z) (sf_adjustment_pct : num)
    (tr : Market.trend_results) : Adjustment.config :=
  Adjustment.mkConfig (Market.SUBJECT_LIVING_AREA subj) DATE_OF_VALUE
    time_adjustment_days sf_adjustment_pct
    (Market.tr_monthly_price_change_pct tr) (Market.tr_daily_price_change tr).

End Pipeline.

(* ------------------------------------------------------------------ *)
(** ** The claims' own wording, for comparison with the code *)

Module Claimed.

Import Market.

(** The sale count of a window whose cutoff is
    [date_of_value - months * 30.44] days, with no truncation. *)
Definition exact_count (DATE_OF_VALUE : Z) (df : list sale) (months : Z) : nat :=
  List.length (filter (fun s => Qle_bool (inject_Z DATE_OF_VALUE
                                          - inject_Z months * month_len)
                                         (inject_Z (Sale_Date s))) df).

(** [sel] splits [l] into the elements flagged [true], in order. *)
Fixpoint select {A : Type} (sel : list bool) (l : list A) : list A :=
  match sel, l with
  | b :: bs, x :: xs => if b then x :: select bs xs else select bs xs
  | _, _ => []
  end.

End Claimed.

(* ------------------------------------------------------------------ *)
(** ** Sample inputs *)

Module Samples.

Import Market.

Local Open Scope string_scope.

(** Day numbers counted from 1970-01-01. *)
Definition dov_2024_01_01 : Z := 19723.

(** A date parser knowing three dates; any other text is [NaT]. *)
Definition parse_sample_date (s : string) : option Z :=
  if s =? "2023-11-02" then Some 19663
  else if s =? "2023-12-27" then Some 19718
  else if s =? "2023-06-01" then Some 19509
  else None.

(** [read_csv]'s number reading on plain decimal integers; "", "NA" and
    "n/a" are missing values. *)
Fixpoint digits_value (s : string) (acc : Z) : option Z :=
  match s with
  | EmptyString => Some acc
  | String c s' =>
      let n := nat_of_ascii c in
      if (48 <=? n)%nat && (n <=? 57)%nat
      then digits_value s' (acc * 10 + Z.of_nat (n - 48))
      else None
  end.

Definition sample_to_float (s : string) : option num :=
  if existsb (String.eqb s) [""; "NA"; "n/a"] then Some NaN
  else option_map of_Z (digits_value s 0).

(** ISO dates: the guessed format is [%Y-%m-%d]. *)
Definition sample_reader : csv_reader :=
  mkReader sample_to_float is_missing (fun _ => Some "%Y-%m-%d")
    (fun _ c => match c with CText s => parse_sample_date s | CNum _ => None end).

(** A regression result: slope 1, intercept 0, r = 0.1. *)
Definition sample_linregress (xs ys : list num) : option (num * num * num) :=
  Some (Fin 1, Fin 0, Fin (1 # 10)).

Definition show_months_1f (_ : Q) : string := "7.0".
Definition show_count_d (_ : nat) : string := "2".

Definition sample_subject : subject := mkSubject "100 Main St" 1800 true.

Definition headers_full : list string :=
  ["Close Price"; "Close Date"; "Living Area"; "Beds"; "Bathrooms";
   "Street Number"; "Street Name"; "DOM"; "CDOM"; "Garage Spaces"].


Definition sample_rows : list raw_row :=
  [mkRaw "2023-06-01" "290000" "1750" "41";
   mkRaw "2023-11-02" "300000" "1800" "12";
   mkRaw "2023-12-27" "310000" "1900" "5"].

Definition garbled_row : raw_row := mkRaw "n/a" "305000" "1850" "20".

Definition sample_processed : list sale :=
  processed_sales sample_reader dov_2024_01_01 sample_rows.

Definition sample_trend : trend_state :=
  match trend_analysis sample_linregress sample_processed with
  | Some t => t
  | None => trend_defaults
  end.

(** Adjustment inputs: subject of 1800 SF, 30-day and 5% thresholds, a
    market rising 0.5% a month at 25 a day. *)
Definition adj_config : Adjustment.config :=
  Adjustment.mkConfig 1800 dov_2024_01_01 30 (Fin 5) (Fin (1 # 2)) (Fin 25).

Definition comp_30_days : Adjustment.comp :=
  Adjustment.mkComp (dov_2024_01_01 - 30) (Fin 300000) (Fin 1800) (Fin (300000 # 1800)).

Definition comp_zero_area : Adjustment.comp :=
  Adjustment.mkComp (dov_2024_01_01 - 60) (Fin 300000) (Fin 0) (Inf true).

End Samples.

Module MoreSamples.

Import Market Samples.

(** Five sales over thirteen months before 2024-01-01: 400, 300, 214, 60
    and 5 days before the date of value. *)
Definition five_sales : list sale :=
  map (derive dov_2024_01_01)
    [(dov_2024_01_01 - 400, Fin 280000, Fin 1700);
     (dov_2024_01_01 - 300, Fin 285000, Fin 1750);
     (dov_2024_01_01 - 214, Fin 290000, Fin 1750);
     (dov_2024_01_01 - 60, Fin 300000, Fin 1800);
     (dov_2024_01_01 - 5, Fin 310000, Fin 1900)]%Z.

Definition five_valid : list valid_period :=
  fst (validate_periods show_months_1f show_count_d dov_2024_01_01 five_sales).

(** The comparables of [five_sales] adjusted against [adj_config] with a
    marginal value of 100 per SF. *)
Definition five_adjusted : list Adjustment.adjusted :=
  map (Adjustment.adjust_row adj_config (Fin 100)) (map Pipeline.to_comp five_sales).

End MoreSamples.

(* ================================================================== *)
(** * Properties *)

Module NumFacts.

Local Open Scope Q_scope.

Lemma Qltb_iff (x y : Q) : Qltb x y = true <-> x < y.
Proof.
  unfold Qltb. rewrite negb_true_iff. split; intro H.
  - apply Qnot_le_lt. intro H'. apply Qle_bool_iff in H'. congruence.
  - destruct (Qle_bool y x) eqn:E; [|reflexivity].
    apply Qle_bool_iff in E. exfalso. apply (Qlt_not_le x y); assumption.
Qed.

Lemma add_assoc_same (a b c : num) :
  Num.same (Num.add a (Num.add b c)) (Num.add (Num.add a b) c).
Proof.
  destruct a as [x|p|], b as [y|r|], c as [z|t|]; simpl; try exact I;
    try apply Qplus_assoc;
    repeat match goal with
           | b : bool |- _ => destruct b
           end; simpl; reflexivity || exact I.
Qed.

End NumFacts.

Module AdjustmentFacts.

Import Adjustment.

(** C1: the net adjustment is the sum of the two components, the adjusted
    price is the sale price plus the net adjustment, and so it denotes the
    same value as sale price plus time amount plus size amount, for every
    row of the adjusted table. *)
Theorem adjusted_price_is_sum (linregress : regression) (cfg : config)
    (comp_sales : list comp) :
  match adjustment_analysis linregress cfg comp_sales with
  | Some rows =>
      Forall (fun r =>
        Net_Adj_Amount r = Num.add (Time_Adj_Amount r) (SF_Adj_Amount r) /\
        Adjusted_Sale_Price r = Num.add (Sale_Price (a_comp r)) (Net_Adj_Amount r) /\
        Num.same (Adjusted_Sale_Price r)
          (Num.add (Num.add (Sale_Price (a_comp r)) (Time_Adj_Amount r))
                   (SF_Adj_Amount r))) rows
  | None => True
  end.
Proof.
  unfold adjustment_analysis.
  destruct (linregress _ _) as [[[slope_sf ?] ?]|]; [|exact I].
  apply Forall_forall. intros r Hin.
  apply in_map_iff in Hin as [c [<- _]].
  unfold adjust_row.
  destruct (time_adjustment _ _) as [t_amt t_pct].
  destruct (sf_adjustment _ _ _ _) as [s_amt s_pct]. simpl.
  split; [reflexivity|]. split; [reflexivity|].
  apply NumFacts.add_assoc_same.
Qed.

(** C2: a row's time adjustment is [daily_price_change * days_diff] and
    [(monthly_trend_pct / 30.44) * days_diff] when [|days_diff|] strictly
    exceeds the threshold, and zero otherwise (in particular when
    [|days_diff|] equals the threshold). *)
Theorem time_adjustment_gate (cfg : config) (marginal_value_per_sf : num)
    (c : comp) :
  let r := adjust_row cfg marginal_value_per_sf c in
  let days_diff := (DATE_OF_VALUE cfg - Sale_Date c)%Z in
  Days_Difference r = days_diff /\
  (Time_Adj_Amount r, Time_Adj_Pct r) =
    (if (TIME_THRESHOLD_DAYS cfg <? Z.abs days_diff)%Z
     then (Num.mul (daily_price_change cfg) (of_Z days_diff),
           Num.mul (Num.div (monthly_trend_pct cfg) (Fin month_len))
                   (of_Z days_diff))
     else (Fin 0, Fin 0)) /\
  (Z.abs days_diff = TIME_THRESHOLD_DAYS cfg ->
     Time_Adj_Amount r = Fin 0 /\ Time_Adj_Pct r = Fin 0).
Proof.
  intros r days_diff. subst r.
  unfold adjust_row, time_adjustment. fold days_diff.
  rewrite Z.gtb_ltb.
  destruct (TIME_THRESHOLD_DAYS cfg <? Z.abs days_diff)%Z eqn:E;
    destruct (sf_adjustment _ _ _ _); simpl; (split; [reflexivity|]);
    (split; [reflexivity|]); intro Heq.
  - apply Z.ltb_lt in E. lia.
  - split; reflexivity.
Qed.

End AdjustmentFacts.

Module MarketFacts.

Import Market.

Lemma floor_ge_iff (k : Z) (x : Q) : (k <= Qfloor x)%Z <-> (inject_Z k <= x)%Q.
Proof.
  split; intro H.
  - eapply Qle_trans; [|apply Qfloor_le]. rewrite <- Zle_Qle. exact H.
  - rewrite <- (Qfloor_Z k). apply Qfloor_resp_le. exact H.
Qed.

Lemma cutoff_exact (DATE_OF_VALUE months d : Z) :
  (DATE_OF_VALUE - period_days months <=? d)%Z =
  Qle_bool (inject_Z DATE_OF_VALUE - inject_Z months * month_len) (inject_Z d).
Proof.
  apply eq_true_iff_eq. rewrite Z.leb_le, Qle_bool_iff.
  unfold period_days.
  set (x := (inject_Z months * month_len)%Q).
  transitivity (DATE_OF_VALUE - d <= Qfloor x)%Z; [lia|].
  rewrite floor_ge_iff. unfold Z.sub.
  rewrite inject_Z_plus, inject_Z_opp.
  rewrite (Qle_minus_iff (_ - _)), (Qle_minus_iff (_ + _)).
  match goal with
  | |- (0 <= ?l)%Q <-> (0 <= ?r)%Q => setoid_replace l with r by ring
  end.
  reflexivity.
Qed.

Lemma count_since_exact (DATE_OF_VALUE : Z) (df : list sale) (months : Z) :
  count_since df (DATE_OF_VALUE - period_days months) =
  Claimed.exact_count DATE_OF_VALUE df months.
Proof.
  unfold count_since, Claimed.exact_count. f_equal.
  apply filter_ext. intro s. apply cutoff_exact.
Qed.

Local Open Scope string_scope.

(** C3: one step of the period loop, with the sale count of the window
    [date_of_value - months * 30.44] days: omit on coverage first, then omit
    on a count equal to the most recently accepted period's count, else
    accept; the decision ignores the periods omitted so far; the loop runs
    over the ladder in order. *)
Theorem period_validation_order (show_months : Q -> string)
    (show_count : nat -> string) (DATE_OF_VALUE : Z) (df : list sale)
    (valid : list valid_period) (omitted : list omitted_period)
    (period_name : string) (period_months : Z) :
  let step := validate_step show_months show_count DATE_OF_VALUE df in
  let n := Claimed.exact_count DATE_OF_VALUE df period_months in
  let cov := actual_coverage_months DATE_OF_VALUE df in
  let accept := (app valid [mkValid period_name period_months n
                     (DATE_OF_VALUE - period_days period_months) "valid"],
                 omitted) in
  step (valid, omitted) (period_name, period_months) =
    (if Qltb (cov + 1) (inject_Z period_months) then
       (valid, app omitted [mkOmitted period_name period_months
          ("extends beyond data coverage (" ++ show_months cov ++ " months)") n])
     else
       match last_valid valid with
       | Some lv =>
           if Nat.eqb n (v_sales_count lv) then
             (valid, app omitted [mkOmitted period_name period_months
                ("identical sales count to " ++ v_name lv ++ " (n="
                 ++ show_count n ++ ")") n])
           else accept
       | None => accept
       end) /\
  (forall omitted' : list omitted_period,
     fst (step (valid, omitted') (period_name, period_months)) =
     fst (step (valid, omitted) (period_name, period_months))) /\
  validate_periods show_months show_count DATE_OF_VALUE df =
    fold_left step time_periods ([], []).
Proof.
  intros step n cov accept. subst step n cov accept.
  split; [|split; [|reflexivity]].
  - unfold validate_step. rewrite count_since_exact. reflexivity.
  - intro omitted'. unfold validate_step.
    destruct (Qltb _ _); [reflexivity|].
    destruct (last_valid valid); [destruct (Nat.eqb _ _)|]; reflexivity.
Qed.

(** *** The loop partitions the ladder *)

Local Open Scope list_scope.

Definition period_key (v : valid_period) : string * Z := (v_name v, v_months v).
Definition omitted_key (o : omitted_period) : string * Z := (o_name o, o_months o).

Definition partitions (st : list valid_period * list omitted_period)
    (sel : list bool) (pre : list (string * Z)) : Prop :=
  List.length sel = List.length pre /\
  map period_key (fst st) = Claimed.select sel pre /\
  map omitted_key (snd st) = Claimed.select (map negb sel) pre /\
  Forall (fun o => o_reason o <> "") (snd st).

Lemma select_app {A : Type} (s1 s2 : list bool) (l1 l2 : list A) :
  List.length s1 = List.length l1 ->
  Claimed.select (s1 ++ s2) (l1 ++ l2) =
  Claimed.select s1 l1 ++ Claimed.select s2 l2.
Proof.
  revert l1. induction s1 as [|b s1 IH]; intros [|x l1] H; simpl in *;
    try discriminate; [reflexivity|].
  injection H as H. rewrite (IH l1 H). destruct b; reflexivity.
Qed.

Lemma partitions_step show_months show_count DATE_OF_VALUE df st p sel pre :
  partitions st sel pre ->
  exists b, partitions (validate_step show_months show_count DATE_OF_VALUE df st p)
                       (sel ++ [b]) (pre ++ [p]).
Proof.
  destruct st as [v o], p as [name m]. intros (Hl & Hv & Ho & Hr).
  simpl in Hv, Ho, Hr.
  assert (Hl' : List.length (map negb sel) = List.length pre)
    by (rewrite length_map; exact Hl).
  assert (Hnew : forall x, o_reason x <> "" ->
            Forall (fun o => o_reason o <> "") (o ++ [x]))
    by (intros x Hx; apply Forall_app; split; [exact Hr | constructor; auto]).
  unfold validate_step.
  destruct (Qltb _ _);
    [|destruct (last_valid v) as [lv|]; [destruct (Nat.eqb _ _)|]].
  1,2: exists false; split; [rewrite !length_app; simpl; lia|];
       simpl; rewrite !map_app, !select_app by assumption; simpl;
       rewrite !app_nil_r, Hv, Ho;
       split; [reflexivity|]; split; [reflexivity|];
       apply Hnew; cbn; discriminate.
  all: exists true; split; [rewrite !length_app; simpl; lia|];
       simpl; rewrite !map_app, !select_app by assumption; simpl;
       rewrite !app_nil_r, Hv, Ho;
       split; [reflexivity|]; split; [reflexivity|]; exact Hr.
Qed.

Lemma partitions_fold show_months show_count DATE_OF_VALUE df ps :
  forall st sel pre, partitions st sel pre ->
  exists sel', partitions
    (fold_left (validate_step show_months show_count DATE_OF_VALUE df) ps st)
    sel' (pre ++ ps).
Proof.
  induction ps as [|p ps IH]; intros st sel pre H; simpl.
  - exists sel. rewrite app_nil_r. exact H.
  - destruct (partitions_step show_months show_count DATE_OF_VALUE df st p
                sel pre H) as [b Hb].
    destruct (IH _ _ _ Hb) as [sel' H'].
    exists sel'. rewrite <- app_assoc in H'. exact H'.
Qed.

(** C10: on a non-empty processed table the period loop places each of the
    nine ladder entries in exactly one of [valid_periods] and
    [omitted_periods], each list in ladder order, and every omitted entry
    has a non-empty reason (its sale count is a field of the record). *)
Theorem periods_partition_ladder (show_months : Q -> string)
    (show_count : nat -> string) (DATE_OF_VALUE : Z) (df : list sale)
    (Hdf : df <> []) :
  let res := validate_periods show_months show_count DATE_OF_VALUE df in
  exists sel : list bool,
    List.length sel = List.length time_periods /\
    map period_key (fst res) = Claimed.select sel time_periods /\
    map omitted_key (snd res) = Claimed.select (map negb sel) time_periods /\
    Forall (fun o => o_reason o <> "") (snd res).
Proof.
  intro res. subst res. unfold validate_periods.
  destruct (partitions_fold show_months show_count DATE_OF_VALUE df
              time_periods ([], []) [] [])
    as [sel H]; [repeat split; constructor|].
  exists sel. exact H.
Qed.

(** C4: after a regression on at least two points the label is decided by
    the rules in order, daily change above 0.50, below -0.50, R^2 below
    0.30, else STABLE; so a daily change above 0.50 is INCREASING whatever
    R^2 is. *)
Theorem market_trend_first_match
    (linregress : list num -> list num -> option (num * num * num))
    (trend_df : list sale) (t : trend_state)
    (Hrun : trend_analysis linregress trend_df = Some t)
    (Hn : (2 <= List.length trend_df)%nat) :
  let r_squared := Num.mul (r_value_price t) (r_value_price t) in
  daily_price_change t = slope_price t /\
  market_trend t =
    (if gt (daily_price_change t) (Fin (1 # 2)) then "INCREASING"
     else if lt (daily_price_change t) (Fin (- (1 # 2))) then "DECREASING"
     else if lt r_squared (Fin (3 # 10)) then "UNSTABLE"
     else "STABLE") /\
  (gt (daily_price_change t) (Fin (1 # 2)) = true ->
     market_trend t = "INCREASING").
Proof.
  intro r_squared. subst r_squared.
  unfold trend_analysis in Hrun.
  apply Nat.leb_le in Hn. rewrite Hn in Hrun.
  destruct (linregress _ (map Sale_Price trend_df)) as [[[sp ip] rp]|];
    [|discriminate].
  destruct (linregress _ (map Price_Per_SF trend_df)) as [[[ss is] rs]|];
    [|discriminate].
  injection Hrun as <-. simpl.
  split; [reflexivity|]. split; [reflexivity|].
  intro H. unfold market_trend_of. rewrite H. reflexivity.
Qed.

(** *** The processed table *)

Definition date_le (a b : sale) : Prop := (Sale_Date a <= Sale_Date b)%Z.

Lemma insert_by_date_perm (s : sale) (l : list sale) :
  Permutation (insert_by_date s l) (s :: l).
Proof.
  induction l as [|h t IH]; simpl; [reflexivity|].
  destruct (Sale_Date s <=? Sale_Date h)%Z; [reflexivity|].
  eapply perm_trans; [apply perm_skip, IH | apply perm_swap].
Qed.

Lemma sort_by_date_perm (l : list sale) : Permutation (sort_by_date l) l.
Proof.
  induction l as [|h t IH]; simpl; [reflexivity|].
  eapply perm_trans; [apply insert_by_date_perm | apply perm_skip, IH].
Qed.

Lemma insert_by_date_sorted (s : sale) (l : list sale) :
  Sorted date_le l -> Sorted date_le (insert_by_date s l).
Proof.
  induction l as [|h t IH]; simpl; intro H.
  - repeat constructor.
  - destruct (Sale_Date s <=? Sale_Date h)%Z eqn:E.
    + apply Z.leb_le in E. constructor; [exact H|]. constructor.
      unfold date_le. lia.
    + apply Z.leb_gt in E. apply Sorted_inv in H as [Ht Hh].
      constructor; [apply IH, Ht|].
      destruct t as [|h' t']; simpl.
      * constructor. unfold date_le. lia.
      * destruct (Sale_Date s <=? Sale_Date h')%Z; constructor.
        -- unfold date_le. lia.
        -- inversion Hh. assumption.
Qed.

Lemma sort_by_date_sorted (l : list sale) : Sorted date_le (sort_by_date l).
Proof.
  induction l as [|h t IH]; simpl; [constructor|].
  apply insert_by_date_sorted, IH.
Qed.

Lemma on_or_before_kept rd DATE_OF_VALUE rows :
  Forall (fun r => exists d, t_date r = Some d /\ (d <= DATE_OF_VALUE)%Z)
         (on_or_before rd DATE_OF_VALUE rows).
Proof.
  apply Forall_forall. intros r Hin. unfold on_or_before in Hin.
  apply filter_In in Hin as [_ H].
  destruct (t_date r) as [d|]; [|discriminate].
  exists d. split; [reflexivity | apply Z.leb_le, H].
Qed.

Lemma sale_numbers_dates (DATE_OF_VALUE : Z) (kept : list typed_row) :
  Forall (fun r => exists d, t_date r = Some d /\ (d <= DATE_OF_VALUE)%Z) kept ->
  forall nums, sale_numbers kept = Some nums ->
  Forall (fun x => let '(d, _, _) := x in (d <= DATE_OF_VALUE)%Z) nums.
Proof.
  induction kept as [|r rs IH]; intros HF nums Hs; simpl in Hs.
  - injection Hs as <-. constructor.
  - inversion HF as [|? ? [d [Hd Hle]] HF']; subst.
    rewrite Hd in Hs.
    destruct (t_price r) as [p|]; [|discriminate].
    destruct (t_area r) as [x|]; [|discriminate].
    destruct (sale_numbers rs) as [l|]; [|discriminate].
    injection Hs as <-. constructor; [exact Hle | exact (IH HF' l eq_refl)].
Qed.

Lemma sale_numbers_length (kept : list typed_row) (nums : list (Z * num * num)) :
  sale_numbers kept = Some nums -> List.length nums = List.length kept.
Proof.
  revert nums. induction kept as [|r rs IH]; intros nums Hs; simpl in Hs.
  - injection Hs as <-. reflexivity.
  - destruct (t_date r); [|discriminate].
    destruct (t_price r); [|discriminate].
    destruct (t_area r); [|discriminate].
    destruct (sale_numbers rs) as [l|]; [|discriminate].
    injection Hs as <-. simpl. f_equal. apply IH. reflexivity.
Qed.

Lemma on_or_before_dates rd DATE_OF_VALUE rows nums :
  sale_numbers (on_or_before rd DATE_OF_VALUE rows) = Some nums ->
  Forall (fun x => let '(d, _, _) := x in (d <= DATE_OF_VALUE)%Z) nums.
Proof. apply sale_numbers_dates, on_or_before_kept. Qed.

(** What a completed run went through. *)
Lemma market_analysis_completed rd linregress show_months show_count
    DATE_OF_VALUE subj columns rows n df valid omitted t :
  market_analysis rd linregress show_months show_count DATE_OF_VALUE subj columns rows
    = Completed n df valid omitted t ->
  exists nums,
    sale_numbers (on_or_before rd DATE_OF_VALUE rows) = Some nums /\
    df = sort_by_date (map (derive DATE_OF_VALUE) nums) /\
    n = List.length (on_or_before rd DATE_OF_VALUE rows) /\
    validate_periods show_months show_count DATE_OF_VALUE df = (valid, omitted) /\
    trend_analysis linregress (trend_window DATE_OF_VALUE df valid) = Some t.
Proof.
  unfold market_analysis.
  destruct (missing_final columns); [|discriminate].
  destruct (duplicated "Sale_Date" columns); [discriminate|].
  destruct (negb (form_fields_present subj)); [discriminate|].
  destruct (on_or_before rd DATE_OF_VALUE rows) as [|k ks]; [discriminate|].
  destruct (duplicated "Sale_Price" columns || duplicated "Living_Area" columns
            || existsb division_raises (k :: ks)); [discriminate|].
  destruct (sale_numbers (k :: ks)) as [nums|]; [|discriminate].
  destruct (validate_periods show_months show_count DATE_OF_VALUE
              (sort_by_date (map (derive DATE_OF_VALUE) nums))) as [v o] eqn:Ev.
  destruct (dom_raises columns (k :: ks) v); [discriminate|].
  destruct (trend_analysis linregress _) as [t'|] eqn:Et; [|discriminate].
  intro H. injection H as <- <- <- <- <-.
  exists nums. repeat split; assumption || reflexivity.
Qed.

Lemma market_analysis_no_sales rd linregress show_months show_count
    DATE_OF_VALUE subj columns rows info n :
  market_analysis rd linregress show_months show_count DATE_OF_VALUE subj columns rows
    = NoSales info n ->
  n = 0%nat /\ on_or_before rd DATE_OF_VALUE rows = [].
Proof.
  unfold market_analysis.
  destruct (missing_final columns); [|discriminate].
  destruct (duplicated "Sale_Date" columns); [discriminate|].
  destruct (negb (form_fields_present subj)); [discriminate|].
  destruct (on_or_before rd DATE_OF_VALUE rows) as [|k ks].
  - intro H. injection H as _ <-. split; reflexivity.
  - destruct (duplicated "Sale_Price" columns || duplicated "Living_Area" columns
              || existsb division_raises (k :: ks)); [discriminate|].
    destruct (sale_numbers (k :: ks)) as [nums|]; [|discriminate].
    destruct (validate_periods _ _ _ _).
    destruct (dom_raises _ _ _); [discriminate|].
    destruct (trend_analysis _ _); discriminate.
Qed.

(** C5: every row of the processed table is dated on or before the date of
    value and carries [Price_Per_SF = Sale_Price / Living_Area] and
    [Days_From_DOV = date_of_value - Sale_Date]; the table is sorted
    ascending by date, holds exactly the retained rows, and is the table
    the script goes on with. *)
Theorem processed_table_ordered (rd : csv_reader)
    (linregress : list num -> list num -> option (num * num * num))
    (show_months : Q -> string) (show_count : nat -> string)
    (DATE_OF_VALUE : Z) (subj : subject) (columns : list string)
    (rows : list raw_row) :
  let df := processed_sales rd DATE_OF_VALUE rows in
  Forall (fun s => (Sale_Date s <= DATE_OF_VALUE)%Z /\
                   Price_Per_SF s = Num.div (Sale_Price s) (Living_Area s) /\
                   Days_From_DOV s = (DATE_OF_VALUE - Sale_Date s)%Z) df /\
  Sorted date_le df /\
  match sale_numbers (on_or_before rd DATE_OF_VALUE rows) with
  | Some nums => Permutation df (map (derive DATE_OF_VALUE) nums)
  | None => df = []
  end /\
  match market_analysis rd linregress show_months show_count
          DATE_OF_VALUE subj columns rows with
  | Completed _ df' _ _ _ => df' = df
  | _ => True
  end.
Proof.
  intro df. subst df.
  assert (Hrun : match market_analysis rd linregress show_months show_count
                         DATE_OF_VALUE subj columns rows with
                 | Completed _ df' _ _ _ => df' = processed_sales rd DATE_OF_VALUE rows
                 | _ => True
                 end).
  { destruct (market_analysis _ _ _ _ _ _ _ _) eqn:E; try exact I.
    apply market_analysis_completed in E as [nums [Hs [-> _]]].
    unfold processed_sales. rewrite Hs. reflexivity. }
  unfold processed_sales in *.
  destruct (sale_numbers (on_or_before rd DATE_OF_VALUE rows)) as [nums|] eqn:Hs.
  - split; [|split; [apply sort_by_date_sorted|split; [apply sort_by_date_perm|exact Hrun]]].
    apply Forall_forall. intros s Hin.
    apply (Permutation_in _ (sort_by_date_perm _)) in Hin.
    apply in_map_iff in Hin as [[[d price] area] [<- Hin]].
    pose proof (on_or_before_dates rd DATE_OF_VALUE rows nums Hs) as HF.
    rewrite Forall_forall in HF. specialize (HF _ Hin). simpl in HF.
    simpl. repeat split; assumption || reflexivity.
  - split; [constructor|split; [constructor|split; [reflexivity|exact Hrun]]].
Qed.

(** *** Degenerate input *)

(** C6 (as the code has it): when the columns pass the checks of lines
    243-263 (the ten canonical columns present, [Sale_Date] carried by one
    column, the form fields present) and no sale is on or before the date
    of value, the script ends in the [NoSales] state, exit status 0,
    writing a record with the message and no [valid_periods] field, and an
    empty processed table; a trend window of fewer than two sales gives
    zero slope, intercept, changes and R^2 and the label INSUFFICIENT
    DATA. *)
Theorem degenerate_states (rd : csv_reader)
    (linregress : list num -> list num -> option (num * num * num))
    (show_months : Q -> string) (show_count : nat -> string)
    (DATE_OF_VALUE : Z) (subj : subject) (columns : list string)
    (rows : list raw_row)
    (Hcols : missing_final columns = [])
    (Hdate : duplicated "Sale_Date" columns = false)
    (Hform : form_fields_present subj = true)
    (Hnone : on_or_before rd DATE_OF_VALUE rows = []) :
  let info := no_sales_info DATE_OF_VALUE subj in
  market_analysis rd linregress show_months show_count
    DATE_OF_VALUE subj columns rows = NoSales info 0 /\
  json_field "message" info = Some (JStr "No sales on or before date of value") /\
  json_field "valid_periods" info = None /\
  processed_sales rd DATE_OF_VALUE rows = [] /\
  (forall trend_df : list sale, (List.length trend_df < 2)%nat ->
     trend_analysis linregress trend_df = Some trend_defaults /\
     intercept_price trend_defaults = Fin 0 /\
     trend_results_of (List.length trend_df) trend_defaults =
       mkTrendResults (Fin 0) (Fin 0) (Fin 0) (Fin 0)
         "INSUFFICIENT DATA" (Fin 0)).
Proof.
  intro info. subst info.
  split; [|split; [reflexivity|split; [reflexivity|split]]].
  - unfold market_analysis. rewrite Hcols, Hdate, Hform, Hnone. reflexivity.
  - unfold processed_sales. rewrite Hnone. reflexivity.
  - intros trend_df Hlt.
    assert (Hb : (2 <=? List.length trend_df)%nat = false)
      by (apply Nat.leb_gt; exact Hlt).
    unfold trend_analysis, trend_results_of. rewrite Hb.
    repeat split.
Qed.

(** *** Header mapping *)



(** *** Unparseable dates *)

(** C9 (as the code has it): a row whose date is NaT after line 251 is
    dropped by the filter of line 269, like a row dated after the date of
    value, and nothing counts it.  Every retained row has a date on or
    before the date of value; the script's outcome, with every count it
    prints or writes, depends on the retained rows alone, so two tables
    that retain the same rows give the same outcome however many rows they
    drop; the sales count it reports is that of the retained rows. *)
Theorem dropped_rows_leave_no_trace (rd : csv_reader)
    (linregress : list num -> list num -> option (num * num * num))
    (show_months : Q -> string) (show_count : nat -> string)
    (DATE_OF_VALUE : Z) (subj : subject) (columns : list string)
    (rows1 rows2 : list raw_row)
    (Hkept : on_or_before rd DATE_OF_VALUE rows1 = on_or_before rd DATE_OF_VALUE rows2) :
  Forall (fun r => exists d, t_date r = Some d /\ (d <= DATE_OF_VALUE)%Z)
         (on_or_before rd DATE_OF_VALUE rows1) /\
  market_analysis rd linregress show_months show_count
    DATE_OF_VALUE subj columns rows1 =
  market_analysis rd linregress show_months show_count
    DATE_OF_VALUE subj columns rows2 /\
  match market_analysis rd linregress show_months show_count
          DATE_OF_VALUE subj columns rows1 with
  | Completed n df _ _ _ =>
      n = List.length df /\ n = List.length (on_or_before rd DATE_OF_VALUE rows1)
  | NoSales _ n => n = 0%nat
  | _ => True
  end.
Proof.
  split; [apply on_or_before_kept|split].
  - unfold market_analysis. rewrite Hkept. reflexivity.
  - destruct (market_analysis _ _ _ _ _ _ _ rows1) eqn:E; try exact I.
    + exact (proj1 (market_analysis_no_sales _ _ _ _ _ _ _ _ _ _ E)).
    + apply market_analysis_completed in E as [nums [Hs [-> [-> _]]]].
      split; [|reflexivity].
      rewrite (Permutation_length (sort_by_date_perm _)), length_map.
      symmetry. apply sale_numbers_length, Hs.
Qed.

End MarketFacts.

Module ZeroAreaFacts.

Import Adjustment.

Local Open Scope Q_scope.

Lemma Qltb_compat_r (t x y : Q) : x == y -> Qltb t x = Qltb t y.
Proof.
  intro H. apply eq_true_iff_eq. rewrite !NumFacts.Qltb_iff, H. reflexivity.
Qed.

Lemma gt_fin_compat (x y : Q) (t : num) : x == y -> gt (Fin x) t = gt (Fin y) t.
Proof. intro H. destruct t; simpl; [apply Qltb_compat_r, H | reflexivity ..]. Qed.

Lemma inject_Z_nonzero (z : Z) : (0 < z)%Z -> ~ inject_Z z == 0.
Proof.
  intros Hz H. apply (inject_Z_injective z 0) in H. lia.
Qed.

Lemma a_comp_adjust_row (cfg : config) (m : num) (c : comp) :
  a_comp (adjust_row cfg m c) = c.
Proof.
  unfold adjust_row.
  destruct (time_adjustment _ _), (sf_adjustment _ _ _ _). reflexivity.
Qed.

Lemma div_by_zero_not_finite (a : num) : is_finite (Num.div a (Fin 0)) = false.
Proof.
  destruct a as [x| |]; simpl; [|reflexivity|reflexivity].
  destruct (Qeq_bool x 0); reflexivity.
Qed.

Lemma div_nan_r (a : num) : Num.div a NaN = NaN.
Proof. destruct a; reflexivity. Qed.

(** C7 (as the code has it): every comparable is kept; a comparable with
    zero living area gets a size difference of -100%, so (for a threshold
    below 100% and a finite marginal value) a finite size adjustment of
    [subject_area * marginal_value] is applied, while its adjusted price per
    SF is not finite (and neither is its price per SF in the processed
    table); a comparable with missing (NaN) living area gets a size
    adjustment of 0 and a NaN adjusted price per SF.  No division raises. *)
Theorem zero_or_missing_area (linregress : regression) (cfg : config)
    (comp_sales : list comp) :
  (match adjustment_analysis linregress cfg comp_sales with
   | Some rows => map a_comp rows = comp_sales
   | None => True
   end) /\
  (forall (q : Q) (c : comp),
     Living_Area c = Fin 0 -> (0 < SUBJECT_LIVING_AREA cfg)%Z ->
     gt (Fin 100) (SF_THRESHOLD_PCT cfg) = true ->
     let r := adjust_row cfg (Fin q) c in
     Num.same (SF_Difference_Pct r) (Fin (-100)) /\
     Num.same (SF_Adj_Amount r) (Fin (inject_Z (SUBJECT_LIVING_AREA cfg) * q)) /\
     is_finite (Adjusted_Price_Per_SF r) = false) /\
  (forall (m : num) (c : comp), Living_Area c = NaN ->
     let r := adjust_row cfg m c in
     SF_Adj_Amount r = Fin 0 /\ SF_Adj_Pct r = Fin 0 /\
     Adjusted_Price_Per_SF r = NaN) /\
  (forall (DATE_OF_VALUE d : Z) (price : num),
     is_finite (Market.Price_Per_SF
                  (Market.derive DATE_OF_VALUE (d, price, Fin 0))) = false /\
     Market.Price_Per_SF (Market.derive DATE_OF_VALUE (d, price, NaN)) = NaN).
Proof.
  split; [|split; [|split]].
  - unfold adjustment_analysis.
    destruct (linregress _ _) as [[[slope_sf ?] ?]|]; [|exact I].
    rewrite map_map. erewrite map_ext; [apply map_id|].
    intro c. apply a_comp_adjust_row.
  - intros q c HLA HS Hthr r. subst r.
    set (S := SUBJECT_LIVING_AREA cfg) in *.
    pose proof (inject_Z_nonzero S HS) as HS'.
    assert (Hz : Qeq_bool (inject_Z S) 0 = false).
    { destruct (Qeq_bool (inject_Z S) 0) eqn:E; [|reflexivity].
      apply Qeq_bool_iff in E. contradiction. }
    assert (Hpct : (0 + - inject_Z S) / inject_Z S * 100 == -100)
      by (field; exact HS').
    unfold adjust_row, sf_adjustment. fold S. rewrite HLA.
    cbn [Num.sub Num.add Num.neg Num.div Num.mul Num.abs of_Z].
    rewrite Hz.
    cbn [Num.div Num.mul Num.abs Num.neg].
    rewrite (gt_fin_compat _ 100) by (rewrite Hpct; reflexivity).
    rewrite Hthr.
    destruct (time_adjustment cfg _) as [t_amt t_pct].
    cbn [SF_Difference_Pct SF_Adj_Amount Adjusted_Price_Per_SF Num.same].
    split; [exact Hpct|]. split; [ring|].
    apply div_by_zero_not_finite.
  - intros m c HLA r. subst r.
    unfold adjust_row, sf_adjustment. rewrite HLA.
    destruct (time_adjustment cfg _) as [t_amt t_pct].
    simpl. repeat split. apply div_nan_r.
  - intros DATE_OF_VALUE d price. split.
    + apply div_by_zero_not_finite.
    + destruct price; reflexivity.
Qed.

End ZeroAreaFacts.

(* ------------------------------------------------------------------ *)
(** ** Instances on the sample inputs *)

Module Instances.

Import Market Samples.

Local Open Scope string_scope.

Lemma time_adjustment_gate_witness :
  Z.abs (Adjustment.DATE_OF_VALUE adj_config - Adjustment.Sale_Date comp_30_days)
    = Adjustment.TIME_THRESHOLD_DAYS adj_config /\
  Adjustment.Time_Adj_Amount (Adjustment.adjust_row adj_config (Fin 100) comp_30_days)
    = Fin 0.
Proof.
  split; [reflexivity|].
  apply (proj2 (proj2 (AdjustmentFacts.time_adjustment_gate adj_config (Fin 100)
                         comp_30_days)) eq_refl).
Defined.

Lemma market_trend_first_match_witness :
  trend_analysis sample_linregress sample_processed = Some sample_trend /\
  (2 <= List.length sample_processed)%nat /\
  market_trend sample_trend = "INCREASING".
Proof.
  split; [vm_compute; reflexivity|]. split; [vm_compute; repeat constructor|].
  apply (proj2 (proj2 (MarketFacts.market_trend_first_match sample_linregress
            sample_processed sample_trend ltac:(vm_compute; reflexivity)
            ltac:(vm_compute; repeat constructor)))).
  vm_compute. reflexivity.
Defined.

Lemma degenerate_states_witness :
  market_analysis sample_reader sample_linregress show_months_1f show_count_d
    dov_2024_01_01 sample_subject headers_full [garbled_row]
  = NoSales (no_sales_info dov_2024_01_01 sample_subject) 0.
Proof.
  apply (MarketFacts.degenerate_states sample_reader sample_linregress
           show_months_1f show_count_d dov_2024_01_01 sample_subject headers_full
           [garbled_row]); vm_compute; reflexivity.
Defined.

Lemma zero_or_missing_area_witness :
  Num.same (Adjustment.SF_Adj_Amount
              (Adjustment.adjust_row adj_config (Fin 100) comp_zero_area))
           (Fin (inject_Z 1800 * 100)).
Proof.
  apply (proj2 (proj1 (proj2 (ZeroAreaFacts.zero_or_missing_area
            (fun _ _ => None) adj_config []))
            100%Q comp_zero_area eq_refl ltac:(reflexivity) ltac:(reflexivity))).
Defined.

Lemma dropped_rows_leave_no_trace_witness :
  on_or_before sample_reader dov_2024_01_01 (sample_rows ++ [garbled_row])
  = on_or_before sample_reader dov_2024_01_01 sample_rows /\
  market_analysis sample_reader sample_linregress show_months_1f show_count_d
    dov_2024_01_01 sample_subject headers_full (sample_rows ++ [garbled_row])
  = market_analysis sample_reader sample_linregress show_months_1f show_count_d
    dov_2024_01_01 sample_subject headers_full sample_rows.
Proof.
  assert (H : on_or_before sample_reader dov_2024_01_01 (sample_rows ++ [garbled_row])
              = on_or_before sample_reader dov_2024_01_01 sample_rows)
    by (vm_compute; reflexivity).
  split; [exact H|].
  exact (proj1 (proj2 (MarketFacts.dropped_rows_leave_no_trace sample_reader
           sample_linregress show_months_1f show_count_d dov_2024_01_01
           sample_subject headers_full (sample_rows ++ [garbled_row]) sample_rows H))).
Defined.

Lemma periods_partition_ladder_witness :
  sample_processed <> [] /\
  exists sel : list bool,
    List.length sel = List.length time_periods /\
    map MarketFacts.period_key
      (fst (validate_periods show_months_1f show_count_d dov_2024_01_01
              sample_processed)) = Claimed.select sel time_periods /\
    map MarketFacts.omitted_key
      (snd (validate_periods show_months_1f show_count_d dov_2024_01_01
              sample_processed)) = Claimed.select (map negb sel) time_periods /\
    Forall (fun o => o_reason o <> "")
      (snd (validate_periods show_months_1f show_count_d dov_2024_01_01
              sample_processed)).
Proof.
  split; [vm_compute; discriminate|].
  apply (MarketFacts.periods_partition_ladder show_months_1f show_count_d
           dov_2024_01_01 sample_processed).
  vm_compute. discriminate.
Defined.

(** *** Counterexamples *)

(** C6: the record written when no sale is on or before the date of value
    has the message but no [valid_periods] entry at all. *)
Lemma no_sales_record_lacks_valid_periods :
  exists info,
    market_analysis sample_reader sample_linregress show_months_1f
      show_count_d dov_2024_01_01 sample_subject headers_full [garbled_row]
    = NoSales info 0 /\
    json_field "message" info = Some (JStr "No sales on or before date of value") /\
    json_field "valid_periods" info <> Some (JList []).
Proof.
  eexists. split; [vm_compute; reflexivity|].
  split; [vm_compute; reflexivity|]. vm_compute. discriminate.
Qed.

(** C7: a comparable with zero living area gets a finite size adjustment
    (1800 SF times a marginal value of 100), not an undefined one. *)
Lemma zero_area_gets_size_adjustment :
  let r := Adjustment.adjust_row adj_config (Fin 100) comp_zero_area in
  Adjustment.Living_Area (Adjustment.a_comp r) = Fin 0 /\
  Adjustment.SF_Adj_Amount r = Fin 180000 /\
  is_finite (Adjustment.SF_Adj_Amount r) = true /\
  is_finite (Adjustment.Adjusted_Price_Per_SF r) = false.
Proof. vm_compute. repeat split. Qed.


(** C9: a fourth row whose date cell "n/a" is NaT after line 251 is
    dropped, and the run completes exactly as without it: the same table,
    periods, trend and the same reported count of three sales, so its drop
    is neither recorded nor reported. *)
Lemma unparseable_row_not_reported :
  map t_date (typed_rows sample_reader (sample_rows ++ [garbled_row]))
    = [Some 19509%Z; Some 19663%Z; Some 19718%Z; None] /\
  market_analysis sample_reader sample_linregress show_months_1f show_count_d
    dov_2024_01_01 sample_subject headers_full (sample_rows ++ [garbled_row])
  = market_analysis sample_reader sample_linregress show_months_1f show_count_d
    dov_2024_01_01 sample_subject headers_full sample_rows /\
  exists df valid omitted t,
    market_analysis sample_reader sample_linregress show_months_1f show_count_d
      dov_2024_01_01 sample_subject headers_full (sample_rows ++ [garbled_row])
    = Completed 3 df valid omitted t.
Proof.
  split; [vm_compute; reflexivity|]. split; [vm_compute; reflexivity|].
  do 4 eexists. vm_compute. reflexivity.
Qed.

End Instances.

(* ------------------------------------------------------------------ *)
(** ** Further properties of the period ladder and the statistics *)

Module LadderFacts.

Import Market.

Local Open Scope list_scope.

Lemma last_valid_snoc (l : list valid_period) (x : valid_period) :
  last_valid (l ++ [x]) = Some x.
Proof. unfold last_valid. rewrite rev_unit. reflexivity. Qed.

Lemma last_valid_some (l : list valid_period) (v : valid_period) :
  last_valid l = Some v -> exists l', l = l' ++ [v].
Proof.
  unfold last_valid. destruct (rev l) as [|w r] eqn:E; [discriminate|].
  intro H. injection H as <-. exists (rev r).
  rewrite <- (rev_involutive l), E. reflexivity.
Qed.

Lemma Sorted_snoc {A : Type} (R : A -> A -> Prop) (l : list A) (x : A) :
  Sorted R l -> (forall l' y, l = l' ++ [y] -> R y x) -> Sorted R (l ++ [x]).
Proof.
  induction l as [|a t IH]; intros Hs Hlast; simpl; [repeat constructor|].
  apply Sorted_inv in Hs as [Ht Hhd]. constructor.
  - apply IH; [exact Ht|]. intros l' y ->. apply (Hlast (a :: l')). reflexivity.
  - destruct t as [|b t'].
    + constructor. apply (Hlast []). reflexivity.
    + simpl. constructor. inversion Hhd; assumption.
Qed.

Section Ladder.

Variable show_months : Q -> string.
Variable show_count : nat -> string.
Variable DATE_OF_VALUE : Z.
Variable df : list sale.

Let cov := actual_coverage_months DATE_OF_VALUE df.

(** What every accepted period carries. *)
Let accepted (v : valid_period) : Prop :=
  In (v_name v, v_months v) time_periods /\
  v_cutoff_date v = (DATE_OF_VALUE - period_days (v_months v))%Z /\
  v_sales_count v = count_since df (v_cutoff_date v) /\
  (inject_Z (v_months v) <= cov + buffer_months)%Q /\
  v_status v = "valid"%string.

Let ladder_inv (st : list valid_period * list omitted_period) : Prop :=
  Sorted (fun a b => v_sales_count a <> v_sales_count b) (fst st) /\
  Forall accepted (fst st).

Lemma validate_step_valid st p :
  fst (validate_step show_months show_count DATE_OF_VALUE df st p) = fst st \/
  fst (validate_step show_months show_count DATE_OF_VALUE df st p) =
    fst st ++ [mkValid (fst p) (snd p)
                 (count_since df (DATE_OF_VALUE - period_days (snd p)))
                 (DATE_OF_VALUE - period_days (snd p)) "valid"].
Proof.
  destruct st as [v o], p as [name m]. unfold validate_step.
  destruct (Qltb _ _); [left; reflexivity|].
  destruct (last_valid v); [destruct (Nat.eqb _ _)|]; simpl; auto.
Qed.

Lemma validate_step_inv st p :
  In p time_periods -> ladder_inv st ->
  ladder_inv (validate_step show_months show_count DATE_OF_VALUE df st p).
Proof.
  destruct st as [v o], p as [name m]. intros Hp [Hs Hf]. simpl in Hs, Hf.
  assert (Hacc : forall w, ladder_inv (v, o) ->
            (forall l' y, v = l' ++ [y] ->
               v_sales_count y <> count_since df (DATE_OF_VALUE - period_days m)) ->
            Qltb (cov + buffer_months) (inject_Z m) = false ->
            ladder_inv (v ++ [mkValid name m
                               (count_since df (DATE_OF_VALUE - period_days m))
                               (DATE_OF_VALUE - period_days m) "valid"], w)).
  { intros w [Hs' Hf'] Hne Hq. split; simpl.
    - apply Sorted_snoc; [exact Hs'|]. exact Hne.
    - apply Forall_app. split; [exact Hf'|]. constructor; [|constructor].
      repeat split; simpl; try reflexivity; [exact Hp|].
      apply Qnot_lt_le. intro Hlt. apply NumFacts.Qltb_iff in Hlt.
      fold cov in Hlt. congruence. }
  unfold validate_step. fold cov.
  destruct (Qltb (cov + buffer_months) (inject_Z m)) eqn:Hq;
    [split; assumption|].
  destruct (last_valid v) as [lv|] eqn:Hl.
  - destruct (Nat.eqb _ _) eqn:He; [split; assumption|].
    apply Hacc; [split; assumption| |reflexivity].
    intros l' y Hv. rewrite Hv, last_valid_snoc in Hl. injection Hl as ->.
    apply Nat.eqb_neq in He. congruence.
  - apply Hacc; [split; assumption| |reflexivity].
    intros l' y Hv. rewrite Hv, last_valid_snoc in Hl. discriminate.
Qed.

Lemma validate_fold_inv ps st :
  incl ps time_periods -> ladder_inv st ->
  ladder_inv (fold_left (validate_step show_months show_count DATE_OF_VALUE df) ps st).
Proof.
  revert st. induction ps as [|p ps IH]; intros st Hincl Hinv; simpl; [exact Hinv|].
  apply IH; [intros q Hq; apply Hincl; right; exact Hq|].
  apply validate_step_inv; [apply Hincl; left; reflexivity|exact Hinv].
Qed.

Lemma validate_periods_inv :
  ladder_inv (validate_periods show_months show_count DATE_OF_VALUE df).
Proof.
  apply validate_fold_inv; [apply incl_refl|]. split; simpl; constructor.
Qed.

Lemma validate_fold_prefix ps st :
  exists l, fst (fold_left (validate_step show_months show_count DATE_OF_VALUE df) ps st)
            = fst st ++ l.
Proof.
  revert st. induction ps as [|p ps IH]; intro st; simpl.
  - exists []. rewrite app_nil_r. reflexivity.
  - destruct (IH (validate_step show_months show_count DATE_OF_VALUE df st p)) as [l Hl].
    rewrite Hl.
    destruct (validate_step_valid st p) as [-> | ->]; eexists;
      [reflexivity | rewrite <- app_assoc; reflexivity].
Qed.

Lemma validate_fold_beyond ps v o :
  (forall p, In p ps -> Qltb (cov + buffer_months) (inject_Z (snd p)) = true) ->
  fst (fold_left (validate_step show_months show_count DATE_OF_VALUE df) ps (v, o)) = v.
Proof.
  revert o. induction ps as [|[name m] ps IH]; intros o Hall; cbn [fold_left];
    [reflexivity|].
  assert (Hs : validate_step show_months show_count DATE_OF_VALUE df (v, o) (name, m)
               = (v, app o [mkOmitted name m
                   ("extends beyond data coverage (" ++ show_months cov ++ " months)")
                   (count_since df (DATE_OF_VALUE - period_days m))])).
  { unfold validate_step. fold cov.
    replace (Qltb (cov + buffer_months) (inject_Z m)) with true; [reflexivity|].
    symmetry. apply (Hall (name, m)). left. reflexivity. }
  rewrite Hs. apply IH. intros p Hp. apply Hall. right. exact Hp.
Qed.

End Ladder.

Lemma time_periods_months (name : string) (m : Z) :
  In (name, m) time_periods -> (3 <= m)%Z.
Proof.
  simpl. intros H.
  repeat (destruct H as [H|H]; [injection H as _ <-; lia|]). destruct H.
Qed.

Lemma name_0_12_months (m : Z) :
  In ("0-12 months"%string, m) time_periods -> m = 12%Z.
Proof.
  simpl. intros H.
  repeat (destruct H as [H|H]; [inversion H; subst; reflexivity|]).
  destruct H.
Qed.

(** X1: a period is accepted on its coverage and on its count alone: two
    consecutive valid periods never have the same sales count, and each
    valid period is a ladder entry no longer than the coverage plus the
    one-month buffer, with the cutoff [date_of_value - int(months*30.44)]
    and the number of sales on or after that cutoff as its count. *)
Theorem valid_periods_accepted (show_months : Q -> string) (show_count : nat -> string)
    (DATE_OF_VALUE : Z) (df : list sale) :
  let valid := fst (validate_periods show_months show_count DATE_OF_VALUE df) in
  Sorted (fun a b => v_sales_count a <> v_sales_count b) valid /\
  Forall (fun v =>
    In (v_name v, v_months v) time_periods /\
    v_cutoff_date v = (DATE_OF_VALUE - period_days (v_months v))%Z /\
    v_sales_count v = count_since df (v_cutoff_date v) /\
    (inject_Z (v_months v) <= actual_coverage_months DATE_OF_VALUE df + buffer_months)%Q /\
    v_status v = "valid"%string) valid.
Proof. exact (validate_periods_inv show_months show_count DATE_OF_VALUE df). Qed.

(** X2: no period at all is valid exactly when the coverage plus the
    one-month buffer is shorter than the three months of the shortest
    period. *)
Theorem no_valid_period_iff (show_months : Q -> string) (show_count : nat -> string)
    (DATE_OF_VALUE : Z) (df : list sale) :
  fst (validate_periods show_months show_count DATE_OF_VALUE df) = [] <->
  (actual_coverage_months DATE_OF_VALUE df + buffer_months < 3)%Q.
Proof.
  split.
  - intro Hnil. apply NumFacts.Qltb_iff.
    destruct (Qltb (actual_coverage_months DATE_OF_VALUE df + buffer_months)
                   (inject_Z 3)) eqn:Hq; [exact Hq|exfalso].
    pose (f := validate_step show_months show_count DATE_OF_VALUE df).
    assert (E : validate_periods show_months show_count DATE_OF_VALUE df =
                fold_left f (tl time_periods) (f ([], []) ("0-3 months"%string, 3%Z)))
      by reflexivity.
    destruct (validate_fold_prefix show_months show_count DATE_OF_VALUE df
                (tl time_periods) (f ([], []) ("0-3 months"%string, 3%Z))) as [l Hl].
    fold f in Hl. rewrite E, Hl in Hnil.
    unfold f, validate_step in Hnil. rewrite Hq in Hnil. discriminate Hnil.
  - intro Hlt. apply validate_fold_beyond.
    intros [name m] Hin. apply NumFacts.Qltb_iff. simpl.
    apply (Qlt_le_trans _ (inject_Z 3)); [exact Hlt|].
    rewrite <- Zle_Qle. exact (time_periods_months name m Hin).
Qed.

(** X3: the trend window.  When "0-12 months" is a valid period, the trend
    regression runs on exactly that period's sales: the rows dated on or
    after its cutoff, as many as its validated count. *)
Theorem trend_window_is_0_12_period (show_months : Q -> string) (show_count : nat -> string)
    (DATE_OF_VALUE : Z) (df : list sale) (v : valid_period)
    (Hin : In v (fst (validate_periods show_months show_count DATE_OF_VALUE df)))
    (Hname : v_name v = "0-12 months"%string) :
  let valid := fst (validate_periods show_months show_count DATE_OF_VALUE df) in
  trend_window DATE_OF_VALUE df valid =
    filter (fun s => (v_cutoff_date v <=? Sale_Date s)%Z) df /\
  List.length (trend_window DATE_OF_VALUE df valid) = v_sales_count v.
Proof.
  intro valid.
  destruct (validate_periods_inv show_months show_count DATE_OF_VALUE df) as [_ Hall].
  rewrite Forall_forall in Hall.
  destruct (Hall v Hin) as (Hp & Hcut & Hcount & _ & _).
  rewrite Hname in Hp. apply name_0_12_months in Hp.
  assert (Hw : trend_window DATE_OF_VALUE df valid =
               filter (fun s => (v_cutoff_date v <=? Sale_Date s)%Z) df).
  { unfold trend_window.
    replace (existsb _ valid) with true.
    - rewrite Hcut, Hp. reflexivity.
    - symmetry. apply existsb_exists. exists v.
      split; [exact Hin|]. rewrite Hname. reflexivity. }
  split; [exact Hw|]. rewrite Hw, Hcount. reflexivity.
Qed.

End LadderFacts.

Module StatsFacts.

Import Market PeriodStats.

Local Open Scope list_scope.

Lemma period_statistics_rows (median std : list num -> num) (df : list sale)
    (valid : list valid_period) :
  Forall (fun v => v_sales_count v = count_since df (v_cutoff_date v) /\
                   (0 < v_months v)%Z) valid ->
  map (fun st => (Period st, Months st, N_Sales st))
      (period_statistics median std df valid) =
  map (fun v => (v_name v, v_months v, v_sales_count v))
      (filter (fun v => negb (Nat.eqb (v_sales_count v) 0)) valid) /\
  Forall (fun st => Absorption_Rate st =
            Fin (inject_Z (Z.of_nat (N_Sales st)) / inject_Z (Months st)))
         (period_statistics median std df valid).
Proof.
  unfold period_statistics.
  induction valid as [|v valid IH]; intro Hall; [split; constructor|].
  inversion Hall as [|? ? [Hc Hm] Hrest]; subst.
  destruct (IH Hrest) as [IH1 IH2].
  cbn [flat_map filter]. unfold count_since in Hc. rewrite <- Hc.
  destruct (Nat.eqb (v_sales_count v) 0) eqn:E; cbn [app negb map];
    [split; [exact IH1|exact IH2]|].
  split; [rewrite IH1; reflexivity|].
  constructor; [|exact IH2].
  cbn [Absorption_Rate N_Sales Months Num.div of_Z].
  replace (Qeq_bool (inject_Z (v_months v)) 0) with false; [reflexivity|].
  symmetry. apply not_true_iff_false. intro H. apply Qeq_bool_iff in H.
  assert (Hz : v_months v = 0%Z) by (apply inject_Z_injective; exact H). lia.
Qed.

(** X4: [statistics_summary.csv] has one row per valid period that holds
    at least one sale, in the order of the valid periods, with that
    period's name, months and validated sales count; its absorption rate
    is the finite value [n / months]. *)
Theorem statistics_follow_valid_periods (median std : list num -> num)
    (show_months : Q -> string) (show_count : nat -> string)
    (DATE_OF_VALUE : Z) (df : list sale) :
  let valid := fst (validate_periods show_months show_count DATE_OF_VALUE df) in
  let stats := period_statistics median std df valid in
  map (fun st => (Period st, Months st, N_Sales st)) stats =
  map (fun v => (v_name v, v_months v, v_sales_count v))
      (filter (fun v => negb (Nat.eqb (v_sales_count v) 0)) valid) /\
  Forall (fun st => Absorption_Rate st =
            Fin (inject_Z (Z.of_nat (N_Sales st)) / inject_Z (Months st))) stats.
Proof.
  intros valid stats. apply period_statistics_rows.
  destruct (LadderFacts.validate_periods_inv show_months show_count DATE_OF_VALUE df)
    as [_ Hall].
  eapply Forall_impl; [|exact Hall].
  intros v (Hp & _ & Hc & _ & _). split; [exact Hc|].
  apply LadderFacts.time_periods_months in Hp. lia.
Qed.

End StatsFacts.

Module SummaryFacts.

Import Adjustment AdjustmentSummary.

Lemma eq0_ne0 (a : num) : eq0 a = negb (ne0 a).
Proof. destruct a; simpl; [rewrite negb_involutive|..]; reflexivity. Qed.

Lemma counts_add (rows : list adjusted) :
  let t r := ne0 (Time_Adj_Amount r) in
  let s r := ne0 (SF_Adj_Amount r) in
  (count_rows (fun r => t r && s r) rows <= count_rows t rows)%nat /\
  (count_rows (fun r => t r && s r) rows <= count_rows s rows)%nat /\
  (count_rows t rows + count_rows s rows
   + count_rows (fun r => eq0 (Time_Adj_Amount r) && eq0 (SF_Adj_Amount r)) rows
   = List.length rows + count_rows (fun r => t r && s r) rows)%nat.
Proof.
  intros t s. unfold count_rows.
  induction rows as [|r rows IH]; simpl; [lia|].
  rewrite !eq0_ne0. fold (t r) (s r).
  destruct (t r), (s r); simpl; lia.
Qed.

(** X5: the four counts of [adjustment_counts] (time only, living area
    only, both, none) add up to the number of comparables: every row falls
    in exactly one of them, NaN amounts counting as nonzero. *)
Theorem adjustment_counts_partition (comp_sales : list adjusted) :
  let c := adjustment_counts_of comp_sales in
  (time_only c + sf_only c + both c + none c = List.length comp_sales)%nat.
Proof.
  intro c. subst c. unfold adjustment_counts_of. cbn [time_only sf_only both none].
  destruct (counts_add comp_sales) as (H1 & H2 & H3). simpl in H1, H2, H3. lia.
Qed.

Local Open Scope Q_scope.

Definition qval (a : num) : Q := match a with Fin q => q | _ => 0 end.

Lemma fold_add_fin (qs : list Q) (a : Q) :
  fold_left Num.add (map Fin qs) (Fin a) = Fin (fold_left Qplus qs a).
Proof.
  revert a. induction qs as [|q qs IH]; intro a; simpl; [reflexivity|]. apply IH.
Qed.

Lemma fold_Qplus_shift (qs : list Q) (a : Q) :
  fold_left Qplus qs a == a + fold_left Qplus qs 0.
Proof.
  revert a. induction qs as [|q qs IH]; intro a; simpl; [ring|].
  rewrite (IH (a + q)), (IH (0 + q)). ring.
Qed.

Lemma fold_Qplus_sum {A : Type} (f g : A -> Q) (l : list A) :
  fold_left Qplus (map (fun x => f x + g x) l) 0 ==
  fold_left Qplus (map f l) 0 + fold_left Qplus (map g l) 0.
Proof.
  induction l as [|x l IH]; simpl; [ring|].
  rewrite (fold_Qplus_shift _ (0 + (f x + g x))), (fold_Qplus_shift _ (0 + f x)),
    (fold_Qplus_shift _ (0 + g x)), IH. ring.
Qed.

Lemma filter_fin (qs : list Q) :
  filter (fun x => match x with NaN => false | _ => true end) (map Fin qs) = map Fin qs.
Proof. induction qs as [|q qs IH]; simpl; [reflexivity|]. rewrite IH. reflexivity. Qed.

Lemma mean_fin {A : Type} (f : A -> Q) (l : list A) :
  Market.mean (map (fun x => Fin (f x)) l) =
  match l with
  | [] => NaN
  | _ => Fin (fold_left Qplus (map f l) 0 / inject_Z (Z.of_nat (List.length l)))
  end.
Proof.
  unfold Market.mean.
  replace (map (fun x => Fin (f x)) l) with (map Fin (map f l))
    by (rewrite map_map; reflexivity).
  rewrite filter_fin. destruct l as [|x l]; [reflexivity|].
  change (match map Fin (map f (x :: l)) with
          | [] => NaN
          | _ :: _ => Num.div (fold_left Num.add (map Fin (map f (x :: l))) (Fin 0))
                        (of_Z (Z.of_nat (List.length (map Fin (map f (x :: l))))))
          end) with
    (Num.div (fold_left Num.add (map Fin (map f (x :: l))) (Fin 0))
       (of_Z (Z.of_nat (List.length (map Fin (map f (x :: l))))))).
  rewrite fold_add_fin, !length_map.
  unfold Num.div, of_Z.
  replace (Qeq_bool (inject_Z (Z.of_nat (List.length (x :: l)))) 0) with false;
    [reflexivity|].
  symmetry. apply not_true_iff_false. intro H. apply Qeq_bool_iff in H.
  assert (Hz : Z.of_nat (List.length (x :: l)) = 0%Z)
    by (apply inject_Z_injective; exact H).
  simpl in Hz. lia.
Qed.

(** X6: with finite sale prices, living areas, daily trend and marginal
    value, the mean adjusted price of STEP 5 is the mean unadjusted price
    plus the mean net adjustment of STEP 6. *)
Theorem adjusted_mean_is_shifted (cfg : config) (m : Q) (comps : list comp)
    (Hdaily : is_finite (daily_price_change cfg) = true)
    (Hfin : Forall (fun c => is_finite (Sale_Price c) = true /\
                             is_finite (Living_Area c) = true) comps) :
  let rows := map (adjust_row cfg (Fin m)) comps in
  Num.same (adj_mean rows) (Num.add (unadj_mean rows) (avg_net_adj rows)).
Proof.
  intro rows.
  assert (Hrow : forall c, In c comps ->
    Sale_Price (a_comp (adjust_row cfg (Fin m) c)) = Fin (qval (Sale_Price c)) /\
    Net_Adj_Amount (adjust_row cfg (Fin m) c)
      = Fin (qval (Net_Adj_Amount (adjust_row cfg (Fin m) c))) /\
    Adjusted_Sale_Price (adjust_row cfg (Fin m) c)
      = Fin (qval (Sale_Price c) + qval (Net_Adj_Amount (adjust_row cfg (Fin m) c)))).
  { intros c Hc. rewrite Forall_forall in Hfin. destruct (Hfin c Hc) as [Hp Ha].
    destruct (Sale_Price c) as [p| |] eqn:Ep; try discriminate.
    destruct (Living_Area c) as [a| |] eqn:Ea; try discriminate.
    destruct (daily_price_change cfg) as [d| |] eqn:Ed; try discriminate.
    unfold adjust_row, time_adjustment, sf_adjustment. rewrite Ed, Ea.
    destruct (_ >? _)%Z; destruct (gt _ _); cbn; rewrite Ep; auto. }
  unfold adj_mean, unadj_mean, avg_net_adj. subst rows. rewrite !map_map.
  rewrite (map_ext_in (fun c => Sale_Price (a_comp (adjust_row cfg (Fin m) c)))
                      (fun c => Fin (qval (Sale_Price c))))
    by (intros c Hc; apply (Hrow c Hc)).
  rewrite (map_ext_in (fun c => Net_Adj_Amount (adjust_row cfg (Fin m) c))
             (fun c => Fin (qval (Net_Adj_Amount (adjust_row cfg (Fin m) c)))))
    by (intros c Hc; apply (Hrow c Hc)).
  rewrite (map_ext_in (fun c => Adjusted_Sale_Price (adjust_row cfg (Fin m) c))
                      (fun c => Fin (qval (Sale_Price c)
                          + qval (Net_Adj_Amount (adjust_row cfg (Fin m) c)))))
    by (intros c Hc; apply (Hrow c Hc)).
  rewrite !mean_fin.
  destruct comps as [|c0 cs]; [exact I|].
  cbn [Num.add Num.same].
  set (n := inject_Z (Z.of_nat (List.length (c0 :: cs)))).
  assert (Hn : ~ n == 0).
  { intro H. assert (Hz : Z.of_nat (List.length (c0 :: cs)) = 0%Z)
      by (apply inject_Z_injective; exact H). simpl in Hz. lia. }
  rewrite (fold_Qplus_sum (fun c => qval (Sale_Price c))
             (fun c => qval (Net_Adj_Amount (adjust_row cfg (Fin m) c)))).
  field. exact Hn.
Qed.

Lemma neg_mul_100 (x : num) :
  Num.same (Num.mul (Num.neg x) (Fin 100)) (Num.neg (Num.mul x (Fin 100))).
Proof. destruct x as [q|[|]|]; cbn; [ring|reflexivity|reflexivity|exact I]. Qed.

(** X7: the size adjustment of lines 118-136.  When it applies (the
    absolute size-difference percentage exceeds the threshold),
    [SF_Adj_Pct] is the negated size-difference percentage, and with a
    finite living area and a positive marginal value a comparable larger
    than the subject is adjusted down and a smaller one up; otherwise both
    [SF_Adj_Amount] and [SF_Adj_Pct] are 0. *)
Theorem size_adjustment_sign (cfg : config) (m : num) (c : comp) :
  let r := adjust_row cfg m c in
  let S := inject_Z (SUBJECT_LIVING_AREA cfg) in
  (gt (Num.abs (SF_Difference_Pct r)) (SF_THRESHOLD_PCT cfg) = true ->
     Num.same (SF_Adj_Pct r) (Num.neg (SF_Difference_Pct r)) /\
     forall a q, Living_Area c = Fin a -> m = Fin q -> 0 < q ->
       exists x, SF_Adj_Amount r = Fin x /\ (S < a -> x < 0) /\ (a < S -> 0 < x)) /\
  (gt (Num.abs (SF_Difference_Pct r)) (SF_THRESHOLD_PCT cfg) = false ->
     SF_Adj_Amount r = Fin 0 /\ SF_Adj_Pct r = Fin 0).
Proof.
  intros r S. subst r.
  set (sf_diff := Num.sub (Living_Area c) (of_Z (SUBJECT_LIVING_AREA cfg))).
  assert (Hd : SF_Difference_Pct (adjust_row cfg m c) =
               Num.mul (Num.div sf_diff (of_Z (SUBJECT_LIVING_AREA cfg))) (Fin 100)).
  { unfold adjust_row. destruct (time_adjustment cfg _), (sf_adjustment _ _ _ _).
    reflexivity. }
  rewrite Hd. clear Hd.
  unfold adjust_row, sf_adjustment. fold sf_diff.
  destruct (time_adjustment cfg _) as [t_amt t_pct].
  destruct (gt _ _) eqn:Hgate; split; intro H; try discriminate H.
  - split.
    + cbn [SF_Adj_Pct SF_Difference_Pct]. apply neg_mul_100.
    + intros a q Harea Hm Hq. subst m sf_diff. rewrite Harea.
      cbn [SF_Adj_Amount Num.sub Num.add Num.neg Num.mul of_Z].
      fold S. eexists. split; [reflexivity|]. split; intro H'.
      * apply Qlt_minus_iff in H'.
        assert (Hp : 0 < (a + - S) * q) by (apply Qmult_lt_0_compat; assumption).
        rewrite Qlt_minus_iff.
        setoid_replace (0 + - (- (a + - S) * q)) with ((a + - S) * q) by ring.
        exact Hp.
      * apply Qlt_minus_iff in H'.
        setoid_replace (- (a + - S) * q) with ((S + - a) * q) by ring.
        apply Qmult_lt_0_compat; assumption.
  - split; reflexivity.
Qed.

End SummaryFacts.

Module PipelineFacts.

Import Pipeline.

Local Open Scope Q_scope.

Lemma time_of_adjust_row (cfg : Adjustment.config) (m : num) (c : Adjustment.comp) :
  let r := Adjustment.adjust_row cfg m c in
  (Adjustment.Time_Adj_Amount r, Adjustment.Time_Adj_Pct r) =
    Adjustment.time_adjustment cfg (Adjustment.Days_Difference r) /\
  Adjustment.Days_Difference r = (Adjustment.DATE_OF_VALUE cfg - Adjustment.Sale_Date c)%Z.
Proof.
  unfold Adjustment.adjust_row.
  destruct (Adjustment.time_adjustment _ _) eqn:E, (Adjustment.sf_adjustment _ _ _ _).
  split; [exact (eq_sym E)|reflexivity].
Qed.

Lemma processed_dates rd DATE_OF_VALUE rows :
  Forall (fun s => (Market.Sale_Date s <= DATE_OF_VALUE)%Z)
         (Market.processed_sales rd DATE_OF_VALUE rows).
Proof.
  unfold Market.processed_sales.
  destruct (Market.sale_numbers (Market.on_or_before rd DATE_OF_VALUE rows)) as [nums|] eqn:E;
    [|constructor].
  apply Forall_forall. intros s Hin.
  apply (Permutation_in _ (MarketFacts.sort_by_date_perm _)) in Hin.
  apply in_map_iff in Hin as [[[d price] area] [<- Hin]].
  pose proof (MarketFacts.on_or_before_dates rd DATE_OF_VALUE rows nums E) as HF.
  rewrite Forall_forall in HF. exact (HF _ Hin).
Qed.

Lemma completed_table rd linregress show_months show_count DATE_OF_VALUE subj columns
    rows n df valid omitted t :
  Market.market_analysis rd linregress show_months show_count DATE_OF_VALUE subj
    columns rows = Market.Completed n df valid omitted t ->
  df = Market.processed_sales rd DATE_OF_VALUE rows.
Proof.
  intro H.
  destruct (MarketFacts.market_analysis_completed _ _ _ _ _ _ _ _ _ _ _ _ _ H)
    as [nums [E [Hdf _]]].
  unfold Market.processed_sales. rewrite E. exact Hdf.
Qed.

(** X8: the direction of the time adjustment of line 93.  In a run of
    Market_Analysis.py that completes, every comparable of the processed
    table it writes is a past (or same-day) sale.  So, when
    Adjustment_Analysis_.py reads that table with a non-negative day
    threshold and a finite daily price change [d] in [validation_info.json],
    each comparable's time adjustment is a finite amount with the sign of
    [d]: it never goes against the trend, and a sale older than the
    threshold is adjusted strictly up in a rising market and strictly down
    in a falling one. *)
Theorem past_sales_follow_trend (rd : Market.csv_reader)
    (linregress : list num -> list num -> option (num * num * num))
    (show_months : Q -> string) (show_count : nat -> string)
    (DATE_OF_VALUE : Z) (subj : Market.subject) (columns : list string)
    (rows : list Market.raw_row)
    (time_adjustment_days : Z) (sf_adjustment_pct : num)
    (tr : Market.trend_results) (m : num) (d : Q)
    (Hthr : (0 <= time_adjustment_days)%Z)
    (Hd : Market.tr_daily_price_change tr = Fin d) :
  let cfg := config_of DATE_OF_VALUE subj time_adjustment_days sf_adjustment_pct tr in
  match Market.market_analysis rd linregress show_months show_count DATE_OF_VALUE
          subj columns rows with
  | Market.Completed _ df _ _ _ =>
    Forall (fun r =>
      (0 <= Adjustment.Days_Difference r)%Z /\
      exists x, Adjustment.Time_Adj_Amount r = Fin x /\
        (0 < d -> 0 <= x) /\ (d < 0 -> x <= 0) /\
        ((time_adjustment_days < Adjustment.Days_Difference r)%Z ->
           (0 < d -> 0 < x) /\ (d < 0 -> x < 0)))
      (map (Adjustment.adjust_row cfg m) (map to_comp df))
  | _ => True
  end.
Proof.
  intro cfg.
  destruct (Market.market_analysis rd linregress show_months show_count DATE_OF_VALUE
              subj columns rows) as [| | | |n df valid omitted t] eqn:Erun; try exact I.
  rewrite (completed_table _ _ _ _ _ _ _ _ _ _ _ _ _ Erun).
  clear Erun.
 rewrite map_map. apply Forall_map.
  eapply Forall_impl; [|apply processed_dates]. intros s Hs. cbv beta in Hs |- *.
  destruct (time_of_adjust_row cfg m (to_comp s)) as [Ht Hdd].
  set (r := Adjustment.adjust_row cfg m (to_comp s)) in *.
  set (dd := Adjustment.Days_Difference r) in *.
  assert (Hdd' : dd = (DATE_OF_VALUE - Market.Sale_Date s)%Z) by exact Hdd.
  assert (Hpos : (0 <= dd)%Z) by lia.
  split; [exact Hpos|].
  unfold Adjustment.time_adjustment in Ht.
  replace (Adjustment.TIME_THRESHOLD_DAYS cfg) with time_adjustment_days in Ht
    by reflexivity.
  replace (Adjustment.daily_price_change cfg) with (Fin d) in Ht
    by (unfold cfg, config_of; simpl; rewrite Hd; reflexivity).
  rewrite Z.abs_eq in Ht by exact Hpos.
  destruct (dd >? time_adjustment_days)%Z eqn:Eg; injection Ht as Ha _.
  - exists (d * inject_Z dd). split; [exact Ha|].
    apply Z.gtb_lt in Eg.
    assert (Hq : 0 < inject_Z dd) by (rewrite <- Zlt_Qlt with (x := 0%Z); lia).
    split; [intro H|split; [intro H|intros _; split; intro H]].
    + apply Qlt_le_weak, Qmult_lt_0_compat; assumption.
    + rewrite Qle_minus_iff.
      setoid_replace (0 + - (d * inject_Z dd)) with (- d * inject_Z dd) by ring.
      apply Qmult_le_0_compat; [|apply Qlt_le_weak, Hq].
      apply Qlt_le_weak. rewrite Qlt_minus_iff in H.
      setoid_replace (- d) with (0 + - d) by ring. exact H.
    + apply Qmult_lt_0_compat; assumption.
    + setoid_replace (d * inject_Z dd) with (- (- d * inject_Z dd)) by ring.
      rewrite Qlt_minus_iff.
      setoid_replace (0 + - - (- d * inject_Z dd)) with (- d * inject_Z dd) by ring.
      apply Qmult_lt_0_compat; [|exact Hq].
      rewrite Qlt_minus_iff in H. setoid_replace (- d) with (0 + - d) by ring. exact H.
  - exists 0. split; [exact Ha|]. rewrite Z.gtb_ltb, Z.ltb_ge in Eg.
    repeat split; intros; try apply Qle_refl; lia.
Qed.

(** X9: the two time-adjustment columns agree through the trend: with the
    trend results written by Market_Analysis.py, a comparable's
    [Time_Adj_Pct] is its [Time_Adj_Amount] as a percentage of the mean
    sale price of the trend window (not of the comparable's own price). *)
Theorem time_pct_of_trend_mean
    (linregress : list num -> list num -> option (num * num * num))
    (trend_df : list Market.sale) (t : Market.trend_state) (mu : Q)
    (DATE_OF_VALUE : Z) (subj : Market.subject) (time_adjustment_days : Z)
    (sf_adjustment_pct : num) (m : num) (c : Adjustment.comp)
    (Ht : Market.trend_analysis linregress trend_df = Some t)
    (Hslope : is_finite (Market.slope_price t) = true)
    (Hmean : Market.mean (map Market.Sale_Price trend_df) = Fin mu)
    (Hmu : ~ mu == 0) :
  let cfg := config_of DATE_OF_VALUE subj time_adjustment_days sf_adjustment_pct
               (Market.trend_results_of (List.length trend_df) t) in
  let r := Adjustment.adjust_row cfg m c in
  Num.same (Adjustment.Time_Adj_Pct r)
           (Num.mul (Num.div (Adjustment.Time_Adj_Amount r) (Fin mu)) (Fin 100)).
Proof.
  intros cfg r.
  destruct (time_of_adjust_row cfg m c) as [Htime _]. fold r in Htime.
  assert (Hmu' : Qeq_bool mu 0 = false)
    by (apply not_true_iff_false; intro H; apply Qeq_bool_iff in H; contradiction).
  assert (Hml : Qeq_bool month_len 0 = false) by reflexivity.
  unfold Adjustment.time_adjustment in Htime.
  replace (Adjustment.daily_price_change cfg) with
    (Market.tr_daily_price_change (Market.trend_results_of (List.length trend_df) t))
    in Htime by reflexivity.
  replace (Adjustment.monthly_trend_pct cfg) with
    (Market.tr_monthly_price_change_pct (Market.trend_results_of (List.length trend_df) t))
    in Htime by reflexivity.
  unfold Market.trend_results_of in Htime. cbn [Market.tr_daily_price_change
    Market.tr_monthly_price_change_pct] in Htime.
  unfold Market.trend_analysis in Ht.
  destruct (2 <=? List.length trend_df)%nat eqn:Hn.
  - destruct (linregress _ (map Market.Sale_Price trend_df)) as [[[sp ip] rp]|]; [|discriminate].
    destruct (linregress _ (map Market.Price_Per_SF trend_df)) as [[[ss is] rs]|];
      [|discriminate].
    injection Ht as <-. cbn [Market.daily_price_change Market.monthly_price_change_pct]
      in Htime.
    rewrite Hmean in Htime.
    destruct sp as [s| |]; [|discriminate Hslope ..].
    destruct (_ >? _)%Z; injection Htime as -> ->; cbn; rewrite ?Hmu', ?Hml; cbn.
    + field. split; [exact Hmu|discriminate].
    + field. exact Hmu.
  - injection Ht as <-. cbn in Htime.
    destruct (_ >? _)%Z; injection Htime as -> ->; cbn; rewrite ?Hmu', ?Hml; cbn;
      field; try split; try exact Hmu; discriminate.
Qed.

End PipelineFacts.

Module MapperFacts.

Import Market.

Local Open Scope string_scope.

Lemma append_assoc (a b c : string) : (a ++ b) ++ c = a ++ (b ++ c).
Proof. induction a as [|x a IH]; simpl; [reflexivity|]. rewrite IH. reflexivity. Qed.

Lemma append_empty_r (a : string) : a ++ EmptyString = a.
Proof. induction a as [|x a IH]; simpl; [reflexivity|]. rewrite IH. reflexivity. Qed.

Lemma rev_string_acc (s acc : string) : rev_string s acc = rev_string s EmptyString ++ acc.
Proof.
  revert acc. induction s as [|x s IH]; intro acc; simpl; [reflexivity|].
  rewrite IH, (IH (String x EmptyString)), append_assoc. reflexivity.
Qed.

Lemma rev_string_app (a b : string) :
  rev_string (a ++ b) EmptyString = rev_string b EmptyString ++ rev_string a EmptyString.
Proof.
  induction a as [|x a IH]; simpl; [rewrite append_empty_r; reflexivity|].
  rewrite (rev_string_acc (a ++ b)), (rev_string_acc a (String x EmptyString)), IH,
    append_assoc. reflexivity.
Qed.

Lemma rev_string_involutive (s : string) : rev_string (rev_string s EmptyString) EmptyString = s.
Proof.
  induction s as [|x s IH]; simpl; [reflexivity|].
  rewrite (rev_string_acc s (String x EmptyString)), rev_string_app, IH. reflexivity.
Qed.

Lemma lstrip_suffix (s : string) : exists p, s = p ++ lstrip s.
Proof.
  induction s as [|x s [p Hp]]; simpl; [exists EmptyString; reflexivity|].
  destruct (is_space x); [exists (String x p); simpl; congruence|].
  exists EmptyString. reflexivity.
Qed.

Lemma lstrip_starts (s : string) :
  forall c t, lstrip s = String c t -> is_space c = false.
Proof.
  induction s as [|x s IH]; simpl; intros c t H; [discriminate|].
  destruct (is_space x) eqn:E; [exact (IH c t H)|].
  injection H as -> _. exact E.
Qed.

Lemma lstrip_id (s : string) :
  (forall c t, s = String c t -> is_space c = false) -> lstrip s = s.
Proof.
  destruct s as [|x s]; simpl; intro H; [reflexivity|].
  rewrite (H x s eq_refl). reflexivity.
Qed.

Lemma lstrip_ends (x : string) :
  (forall t c, x = t ++ String c EmptyString -> is_space c = false) ->
  forall t c, lstrip x = t ++ String c EmptyString -> is_space c = false.
Proof.
  intros H t c E. destruct (lstrip_suffix x) as [p Hp].
  apply (H (p ++ t)). rewrite append_assoc, <- E. exact Hp.
Qed.

Lemma rev_starts_ends (u : string) :
  (forall c t, u = String c t -> is_space c = false) ->
  forall t c, rev_string u EmptyString = t ++ String c EmptyString -> is_space c = false.
Proof.
  intros H t c E. apply (H c (rev_string t EmptyString)).
  rewrite <- (rev_string_involutive u), E, rev_string_app. reflexivity.
Qed.

Lemma rev_ends_starts (w : string) :
  (forall t c, w = t ++ String c EmptyString -> is_space c = false) ->
  forall c t, rev_string w EmptyString = String c t -> is_space c = false.
Proof.
  intros H c t E. apply (H (rev_string t EmptyString)).
  rewrite <- (rev_string_involutive w), E. simpl. apply rev_string_acc.
Qed.

Lemma strip_idempotent (s : string) : strip (strip s) = strip s.
Proof.
  assert (Hs : forall c t, strip s = String c t -> is_space c = false).
  { unfold strip. apply rev_ends_starts, lstrip_ends, rev_starts_ends, lstrip_starts. }
  assert (He : forall t c, strip s = t ++ String c EmptyString -> is_space c = false).
  { unfold strip. apply rev_starts_ends, lstrip_starts. }
  set (x := strip s) in *. unfold strip at 1.
  rewrite (lstrip_id x Hs), (lstrip_id (rev_string x EmptyString)) by (apply rev_ends_starts, He).
  apply rev_string_involutive.
Qed.

Ltac split_ifs H :=
  repeat match type of H with
         | context [if ?b then _ else _] => destruct b eqn:?; simpl in H
         end.

Lemma canonical_of_required (x n : string) :
  canonical_of x = Some n -> In n required_final.
Proof.
  unfold canonical_of. intro H. split_ifs H; try discriminate H; injection H as <-; simpl; tauto.
Qed.

Lemma canonical_of_bedrooms (x : string) :
  canonical_of x = Some "Bedrooms" ->
  contains "bed" (lower x) = true /\ contains "room" (lower x) = false.
Proof.
  unfold canonical_of. intro H. split_ifs H; try discriminate H.
  match goal with E : (contains "bed" _ && negb _)%bool = true |- _ =>
    apply andb_prop in E as [E1 E2]; apply negb_true_iff in E2 end.
  split; assumption.
Qed.

Lemma required_final_fixed (n : string) :
  In n required_final ->
  match canonical_of (strip n) with Some n' => n' | None => strip n end = n.
Proof.
  simpl. intro H. repeat (destruct H as [<-|H]; [vm_compute; reflexivity|]). destruct H.
Qed.

(** X10: the header mapping is idempotent: mapping the mapped headers again
    (as when the processed CSV, whose headers are already canonical, is fed
    back in) changes nothing. *)
Theorem mapped_columns_idempotent (columns : list string) :
  mapped_columns (mapped_columns columns) = mapped_columns columns.
Proof.
  unfold mapped_columns. rewrite map_map. apply map_ext. intro c.
  destruct (canonical_of (strip c)) as [n|] eqn:E.
  - apply required_final_fixed, (canonical_of_required _ _ E).
  - rewrite strip_idempotent, E. reflexivity.
Qed.

(** X11: the Bedrooms column only comes from a header that is exactly
    "Bedrooms" (after the strip) or one that contains "bed" and not "room"
    in any case: a header such as "Bedrooms Total" or "Bedroom Count" is never
    renamed to Bedrooms. *)
Theorem bedrooms_column_source (columns : list string) :
  In "Bedrooms" (mapped_columns columns) ->
  exists h, In h columns /\
    (strip h = "Bedrooms" \/
     (contains "bed" (lower (strip h)) = true /\
      contains "room" (lower (strip h)) = false)).
Proof.
  unfold mapped_columns. intro H. apply in_map_iff in H as [h [Hh Hin]].
  exists h. split; [exact Hin|].
  destruct (canonical_of (strip h)) as [n|] eqn:E.
  - subst n. right. apply canonical_of_bedrooms, E.
  - left. exact Hh.
Qed.

End MapperFacts.

Module TrendAxisFacts.

Import Market.

Lemma fold_min_le (l : list Z) (a : Z) :
  (fold_left Z.min l a <= a)%Z /\ Forall (fun x => fold_left Z.min l a <= x)%Z l.
Proof.
  revert a. induction l as [|x l IH]; intro a; simpl; [split; [lia|constructor]|].
  destruct (IH (Z.min a x)) as [H1 H2]. split; [lia|]. constructor; [lia|exact H2].
Qed.

Lemma fold_min_in (l : list Z) (a : Z) :
  fold_left Z.min l a = a \/ In (fold_left Z.min l a) l.
Proof.
  revert a. induction l as [|x l IH]; intro a; simpl; [left; reflexivity|].
  destruct (IH (Z.min a x)) as [H|H]; [|right; right; exact H].
  rewrite H. destruct (Z.min_spec a x) as [[_ ->]|[_ ->]]; [left|right; left]; reflexivity.
Qed.

(** X12: the regression axis [Days_Numeric] of line 448 counts days from
    the earliest sale of the trend window: every value is a whole number of
    days, none is negative, and the earliest sale sits at 0. *)
Theorem days_numeric_from_earliest (trend_df : list sale) (Hne : trend_df <> []) :
  Forall (fun x => exists k, x = of_Z k /\ (0 <= k)%Z) (days_numeric trend_df) /\
  In (of_Z 0) (days_numeric trend_df).
Proof.
  destruct trend_df as [|s t]; [contradiction|]. clear Hne.
  unfold days_numeric, earliest_sale.
  destruct (fold_min_le (map Sale_Date t) (Sale_Date s)) as [H1 H2].
  set (e := fold_left Z.min (map Sale_Date t) (Sale_Date s)) in *.
  split.
  - apply Forall_map. constructor.
    + exists (Sale_Date s - e)%Z. split; [reflexivity|lia].
    + rewrite Forall_map in H2. eapply Forall_impl; [|exact H2].
      intros u Hu. cbv beta in Hu. exists (Sale_Date u - e)%Z. split; [reflexivity|lia].
  - apply in_map_iff.
    destruct (fold_min_in (map Sale_Date t) (Sale_Date s)) as [H|H]; fold e in H.
    + exists s. split; [|left; reflexivity]. rewrite H, Z.sub_diag. reflexivity.
    + apply in_map_iff in H as [u [Hu Hin]]. exists u.
      split; [|right; exact Hin]. rewrite Hu, Z.sub_diag. reflexivity.
Qed.

End TrendAxisFacts.

Module WindowFacts.

Import Market.

Local Open Scope list_scope.

Lemma step_cases show_months show_count DATE_OF_VALUE df st name m :
  let c := count_since df (DATE_OF_VALUE - period_days m) in
  let st' := validate_step show_months show_count DATE_OF_VALUE df st (name, m) in
  (fst st' = fst st /\
   (Qltb (actual_coverage_months DATE_OF_VALUE df + buffer_months) (inject_Z m) = true \/
    exists lv, last_valid (fst st) = Some lv /\ c = v_sales_count lv)) \/
  (fst st' = fst st ++ [mkValid name m c (DATE_OF_VALUE - period_days m) "valid"] /\
   Qltb (actual_coverage_months DATE_OF_VALUE df + buffer_months) (inject_Z m) = false /\
   forall lv, last_valid (fst st) = Some lv -> c <> v_sales_count lv).
Proof.
  intros c st'. subst st'. destruct st as [vv o]. unfold validate_step. simpl fst.
  destruct (Qltb _ _) eqn:Hq; [left; split; [reflexivity|left; reflexivity]|].
  destruct (last_valid vv) as [lv|] eqn:Hl.
  - destruct (Nat.eqb _ _) eqn:He.
    + left. split; [reflexivity|right]. exists lv. split; [reflexivity|].
      apply Nat.eqb_eq. exact He.
    + right. split; [reflexivity|split; [reflexivity|]].
      intros lv' Hlv. injection Hlv as <-. apply Nat.eqb_neq. exact He.
  - right. split; [reflexivity|split; [reflexivity|]]. intros lv' Hlv. discriminate.
Qed.

Lemma fold_names show_months show_count DATE_OF_VALUE df ps st :
  exists l,
    fst (fold_left (validate_step show_months show_count DATE_OF_VALUE df) ps st)
      = fst st ++ l /\
    Forall (fun v => In (v_name v) (map fst ps)) l.
Proof.
  revert st. induction ps as [|[name m] ps IH]; intro st; cbn [fold_left].
  - exists []. rewrite app_nil_r. split; [reflexivity|constructor].
  - destruct (IH (validate_step show_months show_count DATE_OF_VALUE df st (name, m)))
      as [l [Hl Hn]].
    destruct (step_cases show_months show_count DATE_OF_VALUE df st name m)
      as [[E _]|[E _]]; rewrite E in Hl.
    + exists l. split; [exact Hl|].
      eapply Forall_impl; [|exact Hn]. intros v Hv. right. exact Hv.
    + eexists. split; [rewrite Hl, <- app_assoc; reflexivity|].
      constructor; [left; reflexivity|].
      eapply Forall_impl; [|exact Hn]. intros v Hv. right. exact Hv.
Qed.

Lemma count_since_mono (df : list sale) (a b : Z) :
  (a <= b)%Z -> (count_since df b <= count_since df a)%nat.
Proof.
  intro Hab. unfold count_since.
  induction df as [|s df IH]; simpl; [lia|].
  destruct (b <=? Sale_Date s)%Z eqn:Eb, (a <=? Sale_Date s)%Z eqn:Ea; simpl; try lia.
Qed.

(** X13: the "0-12 months" period is only valid together with the "0-6
    months" period, and then the six-month window holds strictly fewer
    sales.  Otherwise the duplicate check (against "9-12 months", or
    against whatever "0-6 months" was compared with) rejects it.  So the
    trend regression runs on the twelve-month window only when some sale is
    dated between six and twelve months before the date of value. *)
Theorem twelve_months_needs_six_months (show_months : Q -> string)
    (show_count : nat -> string) (DATE_OF_VALUE : Z) (df : list sale)
    (v : valid_period)
    (Hin : In v (fst (validate_periods show_months show_count DATE_OF_VALUE df)))
    (Hname : v_name v = "0-12 months"%string) :
  exists w, In w (fst (validate_periods show_months show_count DATE_OF_VALUE df)) /\
    v_name w = "0-6 months"%string /\ (v_sales_count w < v_sales_count v)%nat.
Proof.
  set (f := validate_step show_months show_count DATE_OF_VALUE df).
  set (first4 := [("0-3 months"%string, 3%Z); ("4-6 months"%string, 6%Z);
                  ("7-9 months"%string, 9%Z); ("9-12 months"%string, 12%Z)]).
  set (last3 := [("0-18 months"%string, 18%Z); ("0-24 months"%string, 24%Z);
                 ("0-36 months"%string, 36%Z)]).
  set (st4 := fold_left f first4 ([], [])).
  set (st5 := f st4 ("0-6 months"%string, 6%Z)).
  set (st6 := f st5 ("0-12 months"%string, 12%Z)).
  assert (E : validate_periods show_months show_count DATE_OF_VALUE df =
              fold_left f last3 st6) by reflexivity.
  rewrite E in Hin |- *.
  set (c6 := count_since df (DATE_OF_VALUE - period_days 6)).
  set (c12 := count_since df (DATE_OF_VALUE - period_days 12)).
  assert (Hmono : (c6 <= c12)%nat).
  { apply count_since_mono.
    assert (H6 : period_days 6 = 182%Z) by reflexivity.
    assert (H12 : period_days 12 = 365%Z) by reflexivity. lia. }
  (* the valid list up to "0-6 months" has no "0-12 months" entry *)
  destruct (fold_names show_months show_count DATE_OF_VALUE df
              (first4 ++ [("0-6 months"%string, 6%Z)]) ([], [])) as [l5 [H5 N5]].
  change (fst st5 = l5) in H5.
  assert (Hnot5 : ~ In v (fst st5)).
  { rewrite H5. intro Hv. rewrite Forall_forall in N5. apply N5 in Hv.
    rewrite Hname in Hv. simpl in Hv. intuition discriminate. }
  destruct (fold_names show_months show_count DATE_OF_VALUE df last3 st6) as [lf [Hf Nf]].
  fold f in Hf. rewrite Hf in Hin |- *.
  apply in_app_or in Hin as [Hin|Hin].
  2:{ exfalso. rewrite Forall_forall in Nf. apply Nf in Hin.
      rewrite Hname in Hin. simpl in Hin. intuition discriminate. }
  (* so "0-12 months" was accepted at its own step *)
  destruct (step_cases show_months show_count DATE_OF_VALUE df st5
              "0-12 months"%string 12%Z) as [[E6 _]|[E6 [Q6 C6]]];
    fold f st6 c12 in E6; [rewrite E6 in Hin; contradiction|].
  rewrite E6 in Hin. apply in_app_or in Hin as [Hin|[<-|[]]]; [contradiction|].
  cbn [v_sales_count].
  assert (Qlt612 : Qltb (actual_coverage_months DATE_OF_VALUE df + buffer_months)
                        (inject_Z 6) = true ->
                   Qltb (actual_coverage_months DATE_OF_VALUE df + buffer_months)
                        (inject_Z 12) = true).
  { rewrite !NumFacts.Qltb_iff. intro H. apply (Qlt_le_trans _ _ _ H).
    rewrite <- Zle_Qle. lia. }
  destruct (step_cases show_months show_count DATE_OF_VALUE df st4
              "0-6 months"%string 6%Z) as [[E5 C5]|[E5 _]]; fold f st5 c6 in E5.
  - exfalso. fold c6 in C5. destruct C5 as [Cov|[lv4 [Hl4 Hc4]]];
      [apply Qlt612 in Cov; congruence|].
    rewrite E5 in C6. specialize (C6 lv4 Hl4).
    (* how "9-12 months" fared *)
    set (st3 := fold_left f [("0-3 months"%string, 3%Z); ("4-6 months"%string, 6%Z);
                  ("7-9 months"%string, 9%Z)] ([], [])).
    assert (E4 : st4 = f st3 ("9-12 months"%string, 12%Z)) by reflexivity.
    destruct (step_cases show_months show_count DATE_OF_VALUE df st3
                "9-12 months"%string 12%Z) as [[E4' C4]|[E4' [Q4 _]]];
      fold f in E4'; rewrite <- E4 in E4'.
    + fold c12 in C4. destruct C4 as [Cov|[lv3 [Hl3 Hc3]]]; [congruence|].
      rewrite E4' in Hl4. rewrite Hl3 in Hl4. injection Hl4 as <-.
      unfold c6, c12 in *. congruence.
    + rewrite E4', LadderFacts.last_valid_snoc in Hl4. injection Hl4 as <-.
      simpl in Hc4. unfold c6, c12 in *. cbn [v_sales_count] in *. congruence.
  - eexists. split; [apply in_or_app; left; rewrite E6, E5; apply in_or_app; left;
                     apply in_or_app; right; left; reflexivity|].
    split; [reflexivity|]. cbn [v_sales_count].
    assert (Hne : c12 <> c6).
    { rewrite E5, LadderFacts.last_valid_snoc in C6.
      exact (C6 _ eq_refl). }
    lia.
Qed.

End WindowFacts.

(* ------------------------------------------------------------------ *)
(** ** Instances of the further properties *)

Module MoreInstances.

Import Market Samples MoreSamples.

Local Open Scope string_scope.

Definition period_0_12 : valid_period :=
  mkValid "0-12 months" 12 4 (dov_2024_01_01 - 365) "valid".

Lemma period_0_12_valid : In period_0_12 five_valid.
Proof. vm_compute. repeat (first [left; reflexivity | right]). Qed.

Lemma trend_window_is_0_12_period_witness :
  In period_0_12 five_valid /\
  trend_window dov_2024_01_01 five_sales five_valid =
    filter (fun s => (dov_2024_01_01 - 365 <=? Sale_Date s)%Z) five_sales /\
  List.length (trend_window dov_2024_01_01 five_sales five_valid) = 4%nat.
Proof.
  split; [exact period_0_12_valid|].
  exact (LadderFacts.trend_window_is_0_12_period show_months_1f show_count_d
           dov_2024_01_01 five_sales period_0_12 period_0_12_valid eq_refl).
Defined.

Lemma twelve_months_needs_six_months_witness :
  In period_0_12 five_valid /\
  exists w, In w five_valid /\ v_name w = "0-6 months" /\
            (v_sales_count w < 4)%nat.
Proof.
  split; [exact period_0_12_valid|].
  exact (WindowFacts.twelve_months_needs_six_months show_months_1f show_count_d
           dov_2024_01_01 five_sales period_0_12 period_0_12_valid eq_refl).
Defined.

Lemma adjusted_mean_is_shifted_witness :
  Num.same (AdjustmentSummary.adj_mean five_adjusted)
    (Num.add (AdjustmentSummary.unadj_mean five_adjusted)
             (AdjustmentSummary.avg_net_adj five_adjusted)).
Proof.
  apply (SummaryFacts.adjusted_mean_is_shifted adj_config 100
           (map Pipeline.to_comp five_sales) eq_refl).
  vm_compute. repeat constructor.
Defined.

(** A comparable of 2000 SF against the 1800 SF subject. *)
Definition comp_2000_sf : Adjustment.comp :=
  Adjustment.mkComp (dov_2024_01_01 - 60) (Fin 320000) (Fin 2000) (Fin (320000 # 2000)).

Lemma size_adjustment_sign_witness :
  Num.same (Adjustment.SF_Adj_Pct (Adjustment.adjust_row adj_config (Fin 100) comp_2000_sf))
    (Num.neg (Adjustment.SF_Difference_Pct
                (Adjustment.adjust_row adj_config (Fin 100) comp_2000_sf))) /\
  exists x, Adjustment.SF_Adj_Amount
              (Adjustment.adjust_row adj_config (Fin 100) comp_2000_sf) = Fin x /\
            (x < 0)%Q.
Proof.
  destruct (proj1 (SummaryFacts.size_adjustment_sign adj_config (Fin 100) comp_2000_sf)
              ltac:(vm_compute; reflexivity)) as [Hpct Hamt].
  split; [exact Hpct|].
  destruct (Hamt 2000%Q 100%Q eq_refl eq_refl ltac:(reflexivity)) as [x [Hx [Hlt _]]].
  exists x. split; [exact Hx|]. apply Hlt. reflexivity.
Defined.

(** Trend results of a market rising 25 a day, 2.5% a month. *)
Definition rising_trend : trend_results :=
  mkTrendResults (Fin 25) (Fin 25) (Fin (5 # 2)) (Fin (1 # 10)) "INCREASING" (Fin (1 # 2)).

Lemma past_sales_follow_trend_witness :
  (exists n df valid omitted t,
     market_analysis sample_reader sample_linregress show_months_1f show_count_d
       dov_2024_01_01 sample_subject headers_full sample_rows
     = Completed n df valid omitted t) /\
  match market_analysis sample_reader sample_linregress show_months_1f show_count_d
          dov_2024_01_01 sample_subject headers_full sample_rows with
  | Completed _ df _ _ _ =>
    Forall (fun r =>
      (0 <= Adjustment.Days_Difference r)%Z /\
      exists x, Adjustment.Time_Adj_Amount r = Fin x /\
        (0 < 25 -> 0 <= x)%Q /\ (25 < 0 -> x <= 0)%Q /\
        ((30 < Adjustment.Days_Difference r)%Z ->
           (0 < 25 -> 0 < x)%Q /\ (25 < 0 -> x < 0)%Q))
      (map (Adjustment.adjust_row
              (Pipeline.config_of dov_2024_01_01 sample_subject 30 (Fin 5) rising_trend)
              (Fin 100))
           (map Pipeline.to_comp df))
  | _ => True
  end.
Proof.
  split; [do 5 eexists; vm_compute; reflexivity|].
  exact (PipelineFacts.past_sales_follow_trend sample_reader sample_linregress
           show_months_1f show_count_d dov_2024_01_01 sample_subject headers_full
           sample_rows 30 (Fin 5) rising_trend (Fin 100) 25 ltac:(lia) eq_refl).
Defined.

Lemma time_pct_of_trend_mean_witness :
  Num.same
    (Adjustment.Time_Adj_Pct
       (Adjustment.adjust_row
          (Pipeline.config_of dov_2024_01_01 sample_subject 30 (Fin 5)
             (trend_results_of (List.length sample_processed) sample_trend))
          (Fin 100) comp_2000_sf))
    (Num.mul (Num.div
       (Adjustment.Time_Adj_Amount
          (Adjustment.adjust_row
             (Pipeline.config_of dov_2024_01_01 sample_subject 30 (Fin 5)
                (trend_results_of (List.length sample_processed) sample_trend))
             (Fin 100) comp_2000_sf))
       (Fin (900000 # 3))) (Fin 100)).
Proof.
  apply (PipelineFacts.time_pct_of_trend_mean sample_linregress sample_processed
           sample_trend (900000 # 3)).
  - vm_compute. reflexivity.
  - vm_compute. reflexivity.
  - vm_compute. reflexivity.
  - intro H. vm_compute in H. discriminate H.
Defined.

Lemma bedrooms_column_source_witness :
  In "Bedrooms" (mapped_columns headers_full) /\
  exists h, In h headers_full /\
    (strip h = "Bedrooms" \/
     (contains "bed" (lower (strip h)) = true /\
      contains "room" (lower (strip h)) = false)).
Proof.
  assert (H : In "Bedrooms" (mapped_columns headers_full)).
  { vm_compute. repeat (first [left; reflexivity | right]). }
  split; [exact H|]. exact (MapperFacts.bedrooms_column_source headers_full H).
Defined.

Lemma days_numeric_from_earliest_witness :
  sample_processed <> [] /\
  Forall (fun x => exists k, x = of_Z k /\ (0 <= k)%Z) (days_numeric sample_processed) /\
  In (of_Z 0) (days_numeric sample_processed).
Proof.
  assert (H : sample_processed <> []) by (vm_compute; discriminate).
  split; [exact H|]. exact (TrendAxisFacts.days_numeric_from_earliest sample_processed H).
Defined.

End MoreInstances.
